(** * TGLogging: the batching log forwarder of [tglogging/tglogger.py]

    A shallow embedding of [TelegramLogHandler]: the intake ([emit]), the
    flush engine ([handle_logs]), the four remote operations and the
    rate-limit governor ([handle_error]), followed by the properties that
    the specification states about them and by further properties of the
    buffer, the scheduling, the requests and their payloads.

    Modelling conventions.
    - A Python [str] is a [list ascii]; [len] is the length as an integer.
    - An [int] is a [Z]; a clock reading of [time.time()] is a binary64
      [float], subtracted as the machine subtracts and compared with an
      [int] by exact value, as Python does.
    - The attributes of [self] that are written once by [__init__] form the
      record [config]; the attributes mutated afterwards form [state].
    - A coroutine is a computation in the monad [M]: it threads the mutable
      attributes and the log of remote requests and diagnostics, and either
      finishes or raises.  The decoded response of each awaited request is
      supplied by the environment, one per call site ([replies]).
    - One run of [handle_logs] is taken as a unit: no other task is
      interleaved at its suspension points. *)

From Stdlib Require Import PrimFloat SpecFloat FloatOps.
From Stdlib Require Import String.
From Stdlib Require Import List ZArith QArith Lia Ascii Bool.
Import ListNotations.

Local Open Scope Z_scope.

(* ------------------------------------------------------------------ *)
(** ** Python strings *)

Module PyStr.

Definition str := list ascii.

Definition NL : ascii := "010"%char.

(** A string literal. *)
Definition lit (s : String.string) : str := String.list_ascii_of_string s.

(** [len(s)]. *)
Definition len (s : str) : Z := Z.of_nat (length s).

(** [s[:n]] for [0 <= n] (every slice bound in the handler is a literal or
    a length). *)
Definition upto (n : Z) (s : str) : str := firstn (Z.to_nat n) s.

(** [s[n:]] for [0 <= n]. *)
Definition from (n : Z) (s : str) : str := skipn (Z.to_nat n) s.

(** [not s]. *)
Definition is_empty (s : str) : bool :=
  match s with [] => true | _ :: _ => false end.

(** [a != b] on strings. *)
Definition str_eqb (a b : str) : bool :=
  if list_eq_dec ascii_dec a b then true else false.

(** The cut at the last newline: [Some (a, b)] when [s = a ++ NL :: b] and
    [b] holds no newline, [None] when [s] holds no newline. *)
Fixpoint rcut (s : str) : option (str * str) :=
  match s with
  | [] => None
  | c :: t =>
      match rcut t with
      | Some (a, b) => Some (c :: a, b)
      | None => if Ascii.eqb c NL then Some ([], t) else None
      end
  end.

(** [s.rsplit("\n", 1)]. *)
Definition rsplit1 (s : str) : list str :=
  match rcut s with
  | Some (a, b) => [a; b]
  | None => [s]
  end.

(** [l[0]] of a list that [rsplit] returned (never empty). *)
Definition item0 (l : list str) : str := hd [] l.

(** [p in s] restricted to a match at the front of [s]. *)
Fixpoint starts_with (p s : str) : bool :=
  match p, s with
  | [], _ => true
  | _ :: _, [] => false
  | a :: p', b :: s' => Ascii.eqb a b && starts_with p' s'
  end.

(** [p in s]: [p] occurs in [s] as a substring. *)
Fixpoint contains (p s : str) : bool :=
  starts_with p s ||
  match s with
  | [] => false
  | _ :: t => contains p t
  end.

End PyStr.
Import PyStr.

(* ------------------------------------------------------------------ *)
(** ** Python numbers *)

Module PyNum.

(** The exact value of a binary64 number that is finite. *)
Definition exact (f : float) : option Q :=
  match Prim2SF f with
  | S754_zero _ => Some 0%Q
  | S754_finite negative m e =>
      let magnitude :=
        if 0 <=? e then inject_Z (Zpos m * 2 ^ e)
        else (Zpos m # Pos.shiftl 1 (Z.to_N (- e))) in
      Some (if negative then Qopp magnitude else magnitude)
  | S754_infinity _ => None
  | S754_nan => None
  end.

(** [f >= z] for a float [f] and an int [z]: Python compares the exact
    values; plus infinity is above every int, and [nan >= z] is false. *)
Definition ge_int (f : float) (z : Z) : bool :=
  match exact f with
  | Some q => Qle_bool (inject_Z z) q
  | None =>
      match Prim2SF f with
      | S754_infinity negative => negb negative
      | _ => false
      end
  end.

End PyNum.
Import PyNum.

(* ------------------------------------------------------------------ *)
(** ** The remote endpoint *)

Module Api.

(** The [result] object of a successful response. *)
Record result_obj := {
  r_message_id : option Z;      (* result.get("message_id") *)
  r_username : option str       (* result.get("username") *)
}.

(** The [parameters] object of an error response, with the two keys the
    endpoint documents; a key that is absent is [None]. *)
Record parameters_obj := {
  retry_after : option Z;
  migrate_to_chat_id : option Z
}.

(** A decoded response, as [response.json()] returns it. *)
Record response := {
  ok : bool;                              (* truth value of res.get("ok") *)
  result : option result_obj;             (* res.get("result") *)
  error_code : option Z;                  (* res.get("error_code") *)
  description : option str;               (* res.get("description") *)
  parameters : option parameters_obj      (* res.get("parameters") *)
}.

(** The requests the handler posts, with the part of the payload that
    depends on the call. *)
Inductive call :=
| GetMe
| SendMessage (text : str)
| EditMessageText (mid : option Z) (text : str)
| SendDocument (document : str).

(** What the endpoint answers to each request of one flush.  A flush posts
    at most one request from each of the five call sites. *)
Record replies := {
  on_getMe : response;          (* verify_bot *)
  on_initialise : response;     (* initialise *)
  on_edit : response;           (* edit_message *)
  on_send : response;           (* send_message *)
  on_document : response        (* send_as_file *)
}.

End Api.
Import Api.

(** What the handler prints. *)
Inductive diag :=
| InvalidToken                    (* "[ERROR] - Invalid bot token provided." *)
| UpdateError (resp : response)   (* "Errors while updating TG logs: ..." *)
| FloodWait (seconds : Z)         (* "Got a FloodWait of ... seconds" *)
| SentAsFile.                     (* "Sending logs as a file, ..." *)

Inductive event :=
| Request (c : call)
| Print (d : diag).

(* ------------------------------------------------------------------ *)
(** ** The handler object *)

(** Attributes fixed by [__init__]. *)
Record config := {
  title : str;
  ignore_match : option (list str);
  wait_time : Z;
  minimum : Z;
  pending : Z
}.

(** Attributes that [emit], [handle_logs] and the remote operations mutate. *)
Record state := {
  messages : str;
  current_msg : str;
  floodwait : Z;
  message_id : option Z;
  lines : Z;
  last_update : float
}.

Definition set_messages (v : str) (s : state) : state :=
  {| messages := v; current_msg := current_msg s; floodwait := floodwait s;
     message_id := message_id s; lines := lines s; last_update := last_update s |}.

Definition set_current_msg (v : str) (s : state) : state :=
  {| messages := messages s; current_msg := v; floodwait := floodwait s;
     message_id := message_id s; lines := lines s; last_update := last_update s |}.

Definition set_floodwait (v : Z) (s : state) : state :=
  {| messages := messages s; current_msg := current_msg s; floodwait := v;
     message_id := message_id s; lines := lines s; last_update := last_update s |}.

Definition set_message_id (v : option Z) (s : state) : state :=
  {| messages := messages s; current_msg := current_msg s; floodwait := floodwait s;
     message_id := v; lines := lines s; last_update := last_update s |}.

Definition set_lines (v : Z) (s : state) : state :=
  {| messages := messages s; current_msg := current_msg s; floodwait := floodwait s;
     message_id := message_id s; lines := v; last_update := last_update s |}.

Definition set_last_update (v : float) (s : state) : state :=
  {| messages := messages s; current_msg := current_msg s; floodwait := floodwait s;
     message_id := message_id s; lines := lines s; last_update := v |}.

(** The [ignore_match] argument of [__init__]: a string or an iterable of
    strings. *)
Inductive ignore_arg :=
| IgnoreStr (s : str)
| IgnoreList (l : list str).

(** [__init__], lines 46-57: the attributes that stay fixed. *)
Definition init_config (title_arg : str) (ignore : ignore_arg)
    (update_interval minimum_lines pending_logs : Z) : config :=
  {| title := title_arg;
     ignore_match :=
       match ignore with
       | IgnoreStr s => if 0 <? len s then Some [s] else None
       | IgnoreList l => if 0 <? Z.of_nat (length l) then Some l else None
       end;
     wait_time := update_interval;
     minimum := minimum_lines;
     pending := pending_logs |}.

(** [__init__], lines 58-63. *)
Definition init_state : state :=
  {| messages := []; current_msg := []; floodwait := 0;
     message_id := Some 0; lines := 0; last_update := 0%float |}.

(** The handler with every optional argument at its default. *)
Definition default_config : config :=
  init_config (lit "TGLogging-black"%string) (IgnoreStr []) 5 1 200000.

(* ------------------------------------------------------------------ *)
(** ** Intake: [emit] *)

(** Lines 72-75: some configured string occurs in the line. *)
Definition ignored (cfg : config) (msg : str) : bool :=
  match ignore_match cfg with
  | Some l => existsb (fun m => contains m msg) l
  | None => false
  end.

(** Line 79: the gate, from the elapsed time and the counter. *)
Definition gate (cfg : config) (diff : float) (s : state) : bool :=
  ge_int diff (Z.max (wait_time cfg) (floodwait s))
  && (minimum cfg <=? lines s).

(** [emit], with [msg] the formatted record and [t1], [t2] the readings of
    the clock at lines 78 and 84.  The boolean tells whether a flush task
    was created (line 82). *)
Definition emit (cfg : config) (msg : str) (t1 t2 : float) (s : state)
    : state * bool :=
  if ignored cfg msg then (s, false)
  else
    let s := set_lines (lines s + 1) s in
    let s := set_messages (messages s ++ msg ++ [NL]) s in
    let diff := (t1 - last_update s)%float in
    if gate cfg diff s then
      let s := if floodwait s =? 0 then s else set_floodwait 0 s in
      let s := set_lines 0 s in
      let s := set_last_update t2 s in
      (s, true)
    else (s, false).

(* ------------------------------------------------------------------ *)
(** ** Coroutines: state, request log and exceptions *)

Inductive exn :=
| AttributeError    (* [.get] on [None] *)
| TypeError.        (* unpacking [None] *)

Inductive outcome (A : Type) :=
| Done (a : A)
| Raised (e : exn).
Arguments Done {A} a.
Arguments Raised {A} e.

(** The handler's mutable attributes and everything it has posted or
    printed so far, oldest first. *)
Record world := {
  self : state;
  io : list event
}.

Definition M (A : Type) : Type := world -> outcome A * world.

Definition ret {A : Type} (a : A) : M A := fun w => (Done a, w).

Definition bind {A B : Type} (m : M A) (f : A -> M B) : M B :=
  fun w =>
    match m w with
    | (Done a, w') => f a w'
    | (Raised e, w') => (Raised e, w')
    end.

Definition raise {A : Type} (e : exn) : M A := fun w => (Raised e, w).

Definition get_self : M state := fun w => (Done (self w), w).

Definition update (f : state -> state) : M unit :=
  fun w => (Done tt, {| self := f (self w); io := io w |}).

Definition tell (e : event) : M unit :=
  fun w => (Done tt, {| self := self w; io := io w ++ [e] |}).

Declare Scope coro_scope.
Delimit Scope coro_scope with coro.
Notation "x <- m ;; k" := (bind m (fun x => k))
  (at level 61, m at next level, right associativity) : coro_scope.
Notation "m ;; k" := (bind m (fun _ => k))
  (at level 61, right associativity) : coro_scope.
Local Open Scope coro_scope.

(** [send_request]: post, await the decoded response. *)
Definition send_request (c : call) (r : response) : M response :=
  tell (Request c);; ret r.

Definition print (d : diag) : M unit := tell (Print d).

(* ------------------------------------------------------------------ *)
(** ** Rate-limit governor: [handle_error] *)

(** Truth value of an optional integer: [None] and [0] are false. *)
Definition truthy_int (v : option Z) : bool :=
  match v with
  | Some z => negb (z =? 0)
  | None => false
  end.

(** Truth value of an optional string: [None] and [""] are false. *)
Definition truthy_str (v : option str) : bool :=
  match v with
  | Some s => negb (is_empty s)
  | None => false
  end.

(** Truth value of the [parameters] dictionary: false when it has no key. *)
Definition truthy_parameters (p : parameters_obj) : bool :=
  match retry_after p, migrate_to_chat_id p with
  | None, None => false
  | _, _ => true
  end.

(** [resp.get("error_code") == 401 and resp.get("description") == "Unauthorized"]. *)
Definition is_unauthorized (resp : response) : bool :=
  match error_code resp, description resp with
  | Some c, Some d => (c =? 401) && str_eqb d (lit "Unauthorized"%string)
  | _, _ => false
  end.

(** [handle_error], lines 190-204. *)
Definition handle_error (resp : response) : M unit :=
  let error :=
    match parameters resp with
    | Some p => p
    | None => {| retry_after := None; migrate_to_chat_id := None |}
    end in
  if negb (truthy_parameters error) then
    if is_unauthorized resp then ret tt
    else print (UpdateError resp)
  else
    if truthy_int (retry_after error) then
      match retry_after error with
      | Some v => update (set_floodwait v);; print (FloodWait v)
      | None => ret tt
      end
    else ret tt.

(* ------------------------------------------------------------------ *)
(** ** The four remote operations *)

Section Handler.

Variable cfg : config.

(** The text of a message: the log content in a code block under the
    title (lines 150 and 162). *)
Definition render (message : str) : str :=
  lit "```"%string ++ title cfg ++ [NL] ++ message ++ lit "```"%string.

Definition init_text : str := lit "```Initializing eyMarv/TGLogging```"%string.

(** [verify_bot], lines 129-134.  [None] is the value of a call that
    falls off the end of the function. *)
Definition verify_bot (rs : replies) : M (option (option str * bool)) :=
  res <- send_request GetMe (on_getMe rs);;
  if is_unauthorized res then ret (Some (None, false))
  else
    match result res with
    | None => raise AttributeError
    | Some r =>
        if truthy_str (r_username r) then ret (Some (r_username r, true))
        else ret None
    end.

(** [initialise], lines 136-146. *)
Definition initialise (rs : replies) : M unit :=
  res <- send_request (SendMessage init_text) (on_initialise rs);;
  if ok res then
    match result res with
    | None => raise AttributeError
    | Some r => update (set_message_id (r_message_id r))
    end
  else handle_error res.

(** [send_message], lines 148-157. *)
Definition send_message (rs : replies) (message : str) : M unit :=
  res <- send_request (SendMessage (render message)) (on_send rs);;
  if ok res then
    match result res with
    | None => raise AttributeError
    | Some r => update (set_message_id (r_message_id r))
    end
  else handle_error res.

(** [edit_message], lines 159-166. *)
Definition edit_message (rs : replies) (message : str) : M unit :=
  s <- get_self;;
  res <- send_request (EditMessageText (message_id s) (render message))
                      (on_edit rs);;
  if negb (ok res) then handle_error res else ret tt.

(** [send_as_file], lines 168-188. *)
Definition send_as_file (rs : replies) (logs : str) : M unit :=
  res <- send_request (SendDocument logs) (on_document rs);;
  if ok res then print SentAsFile else handle_error res.

(* ------------------------------------------------------------------ *)
(** ** Flush engine: [handle_logs] *)

(** The idiom of lines 89-91, 98-100 and 112-114: the text before the last
    newline, or the whole text when that is empty. *)
Definition whole_lines (text : str) : str :=
  let msg := item0 (rsplit1 text) in
  if is_empty msg then text else msg.

(** Lines 88-91: the span dumped to a file. *)
Definition file_chunk (buf : str) : str := whole_lines buf.

(** Lines 97-100: the span taken for a text message. *)
Definition text_chunk (buf : str) : str := whole_lines (upto 4050 buf).

(** Line 87. *)
Definition file_mode (s : state) : bool := pending cfg <? len (messages s).

(** Lines 104-108: the session bootstrap. *)
Definition bootstrap (rs : replies) : M unit :=
  s <- get_self;;
  if negb (truthy_int (message_id s)) then
    v <- verify_bot rs;;
    match v with
    | None => raise TypeError
    | Some (uname, is_alive) =>
        (if negb is_alive then print InvalidToken else ret tt);;
        initialise rs
    end
  else ret tt.

(** Lines 109-122: compose the candidate and post it. *)
Definition compose (rs : replies) (msg : str) : M unit :=
  s <- get_self;;
  let computed_message := current_msg s ++ msg in
  if 4050 <? len computed_message then
    let _to_edit := upto 4050 computed_message in
    let to_edit := whole_lines _to_edit in
    let to_new := from (len to_edit) computed_message in
    (if negb (str_eqb to_edit (current_msg s))
     then edit_message rs to_edit else ret tt);;
    update (set_current_msg to_new);;
    send_message rs to_new
  else
    edit_message rs computed_message;;
    update (set_current_msg computed_message).

(** [handle_logs], lines 86-122. *)
Definition handle_logs (rs : replies) : M unit :=
  s <- get_self;;
  if file_mode s then
    let msg := file_chunk (messages s) in
    update (set_current_msg []);;
    update (set_message_id (Some 0));;
    update (fun s => set_messages (from (len msg) (messages s)) s);;
    send_as_file rs msg
  else
    let msg := text_chunk (messages s) in
    let letter_count := len msg in
    update (fun s => set_messages (from letter_count (messages s)) s);;
    bootstrap rs;;
    compose rs msg.

(** The span that a flush started in [s] removes from the buffer. *)
Definition chunk (s : state) : str :=
  if file_mode s then file_chunk (messages s) else text_chunk (messages s).

(* ------------------------------------------------------------------ *)
(** ** The handler in its event loop *)

(** What happens to a handler: a record is logged, or a flush runs. *)
Inductive op :=
| Emit (msg : str) (t1 t2 : float)
| Flush (rs : replies).

(** A handler together with the number of flush tasks that [emit] has
    created and the loop has not run yet. *)
Record system := {
  sys : world;
  tasks : nat
}.

(** One step of the loop.  A flush runs as one step, which is what the
    code does when it is the only task queued and no record is logged
    while it is suspended; runs in which a flush starts while another task
    is queued are not represented.  An exception raised by the task ends
    the task, not the loop. *)
Definition step (o : op) (y : system) : option system :=
  match o with
  | Emit msg t1 t2 =>
      let (s', scheduled) := emit cfg msg t1 t2 (self (sys y)) in
      Some {| sys := {| self := s'; io := io (sys y) |};
              tasks := if scheduled then S (tasks y) else tasks y |}
  | Flush rs =>
      match tasks y with
      | 1%nat => Some {| sys := snd (handle_logs rs (sys y)); tasks := O |}
      | _ => None
      end
  end.

Fixpoint steps (os : list op) (y : system) : option system :=
  match os with
  | [] => Some y
  | o :: os' =>
      match step o y with
      | Some y' => steps os' y'
      | None => None
      end
  end.

Definition boot : system :=
  {| sys := {| self := init_state; io := [] |}; tasks := O |}.

(** The bookkeeping of a run in which flushes happen at any moment: the
    handler, the lines accepted so far and the spans removed so far, both
    oldest first. *)
Record ledger := {
  now : world;
  accepted : list str;
  removed : list str
}.

Definition account (o : op) (g : ledger) : ledger :=
  match o with
  | Emit msg t1 t2 =>
      {| now := {| self := fst (emit cfg msg t1 t2 (self (now g)));
                   io := io (now g) |};
         accepted := if ignored cfg msg then accepted g
                     else accepted g ++ [msg];
         removed := removed g |}
  | Flush rs =>
      {| now := snd (handle_logs rs (now g));
         accepted := accepted g;
         removed := removed g ++ [chunk (self (now g))] |}
  end.

Definition audit (os : list op) (g : ledger) : ledger :=
  fold_left (fun g o => account o g) os g.

Definition opening (s : state) : ledger :=
  {| now := {| self := s; io := [] |}; accepted := []; removed := [] |}.

(** The accepted lines as they enter the buffer (line 77). *)
Definition buffered (ls : list str) : str :=
  concat (map (fun l => l ++ [NL]) ls).

End Handler.
(* ------------------------------------------------------------------ *)
(** ** Observations used by the properties *)

(** The requests among the events, oldest first. *)
Definition requests (evs : list event) : list call :=
  flat_map (fun e => match e with Request c => [c] | Print _ => [] end) evs.

(** The [retry_after] value of a response, when it has one. *)
Definition retry_after_of (resp : response) : option Z :=
  match parameters resp with
  | Some p => retry_after p
  | None => None
  end.

(** A run of [emit] over several records, each with its two clock
    readings; the booleans tell which calls created a flush task. *)
Fixpoint feed (cfg : config) (es : list (str * float * float)) (s : state)
    : state * list bool :=
  match es with
  | [] => (s, [])
  | (msg, t1, t2) :: es' =>
      let (s1, b) := emit cfg msg t1 t2 s in
      let (s2, bs) := feed cfg es' s1 in
      (s2, b :: bs)
  end.

(** The splits as the specification words them, for comparison with
    [whole_lines]. *)
Module Spec.

(** "everything up to and including the last newline, falling back to the
    whole buffer if no newline exists". *)
Definition file_span (buf : str) : str :=
  match rcut buf with
  | Some (a, _) => a ++ [NL]
  | None => buf
  end.

(** "if that slice contains a newline, truncate to the last newline,
    unless no newline exists, in which case use the full slice". *)
Definition text_span (buf : str) : str :=
  match rcut (upto 4050 buf) with
  | Some (a, _) => a
  | None => upto 4050 buf
  end.

(** "split candidate at the last newline at or before position 4050
    (fallback: hard cut at 4050 if no newline)": the left part. *)
Definition split_left (candidate : str) : str :=
  match rcut (upto 4050 candidate) with
  | Some (a, _) => a
  | None => upto 4050 candidate
  end.

End Spec.

(** Responses and runs used as concrete inputs. *)
Module Sample.

Definition success (mid : Z) : response :=
  {| ok := true;
     result := Some {| r_message_id := Some mid;
                       r_username := Some (lit "logbot"%string) |};
     error_code := None; description := None; parameters := None |}.

(** The endpoint's flood-control answer. *)
Definition flood (seconds : Z) : response :=
  {| ok := false; result := None; error_code := Some 429;
     description := Some (lit "Too Many Requests"%string);
     parameters := Some {| retry_after := Some seconds;
                           migrate_to_chat_id := None |} |}.

(** Every request succeeds; a message that is sent gets identifier [mid]. *)
Definition all_ok (mid : Z) : replies :=
  {| on_getMe := success 0; on_initialise := success mid;
     on_edit := success mid; on_send := success mid;
     on_document := success mid |}.

(** As [all_ok], but the identity check is answered with flood control. *)
Definition getMe_flooded : replies :=
  {| on_getMe := flood 30; on_initialise := success 1;
     on_edit := success 1; on_send := success 1;
     on_document := success 1 |}.

Definition world_of (s : state) : world := {| self := s; io := [] |}.

End Sample.

(** Two states that differ at most in the governor floor. *)
Definition but_floor (s s' : state) : Prop :=
  messages s' = messages s /\ current_msg s' = current_msg s /\
  message_id s' = message_id s /\ lines s' = lines s /\
  last_update s' = last_update s.

(** Two states with the same buffer and the same committed text. *)
Definition same_text (s s' : state) : Prop :=
  messages s' = messages s /\ current_msg s' = current_msg s.

(** Two states with the same buffer. *)
Definition same_buffer (s s' : state) : Prop := messages s' = messages s.

(** A coroutine whose every run relates the attributes before and after
    by [R], whether it finishes or raises. *)
Definition frames {A : Type} (R : state -> state -> Prop) (m : M A) : Prop :=
  forall w, R (self w) (self (snd (m w))).

(** The identity check of [verify_bot] returns a pair: the endpoint
    answered "Unauthorized", or a result with a user name. *)
Definition verified (rs : replies) : bool :=
  is_unauthorized (on_getMe rs) ||
  match result (on_getMe rs) with
  | Some r => truthy_str (r_username r)
  | None => false
  end.

(** The message text that a request carries. *)
Definition text_of (c : call) : option str :=
  match c with
  | SendMessage text => Some text
  | EditMessageText _ text => Some text
  | GetMe => None
  | SendDocument _ => None
  end.

(** A ledger is balanced over [base], the buffer the run started with:
    what was accepted is what was removed followed by what is pending. *)
Definition balanced (base : str) (g : ledger) : Prop :=
  base ++ buffered (accepted g) = concat (removed g) ++ messages (self (now g)).

(* ------------------------------------------------------------------ *)
(** ** Further observations: buffer shape, scheduling, request payloads *)

(** A buffer that is empty or ends with a newline. *)
Definition tidy (buf : str) : Prop :=
  buf = [] \/ exists body, buf = body ++ [NL].

(** The diagnostics among the events, oldest first. *)
Definition prints (evs : list event) : list diag :=
  flat_map (fun e => match e with Print d => [d] | Request _ => [] end) evs.

(** The clock readings of the calls of [emit] that create a flush task,
    in a run where flushes happen at any moment. *)
Fixpoint firings (cfg : config) (os : list op) (w : world)
    : list (float * float) :=
  match os with
  | [] => []
  | Emit msg t1 t2 :: os' =>
      let (s', fired) := emit cfg msg t1 t2 (self w) in
      (if fired then [(t1, t2)] else [])
      ++ firings cfg os' {| self := s'; io := io w |}
  | Flush rs :: os' => firings cfg os' (snd (handle_logs cfg rs w))
  end.

(** At each firing the elapsed time that [emit] computes, from its clock
    reading and the timestamp that the firing before it stored ([last] for
    the first one), is at least [gap]. *)
Fixpoint spaced (gap : Z) (last : float) (l : list (float * float)) : Prop :=
  match l with
  | [] => True
  | (t1, t2) :: l' =>
      ge_int (t1 - last)%float gap = true /\ spaced gap t2 l'
  end.

(** The counter and the timestamp of the gate are the same in both states. *)
Definition same_gate (s s' : state) : Prop :=
  lines s' = lines s /\ last_update s' = last_update s.

(** The floor of [s'] is that of [s], or a [retry_after] other than zero
    carried by one of the responses [rs]. *)
Definition floor_from (rs : list response) (s s' : state) : Prop :=
  floodwait s' = floodwait s \/
  (floodwait s' <> 0 /\
   exists r, In r rs /\ retry_after_of r = Some (floodwait s')).

(** The responses of one flush that can reach [handle_error]. *)
Definition handled (rs : replies) : list response :=
  [on_initialise rs; on_edit rs; on_send rs; on_document rs].

(** An error response on which [handle_error] neither prints nor moves the
    floor: "Unauthorized" without parameters. *)
Definition silent (r : response) : Prop :=
  ok r = false /\ parameters r = None /\ is_unauthorized r = true.

(** What a request posted by a flush started in world [w] may be. *)
Definition allowed (cfg : config) (w : world) (c : call) : Prop :=
  match c with
  | GetMe => truthy_int (message_id (self w)) = false
  | SendMessage text =>
      file_mode cfg (self w) = false
  | EditMessageText _ text =>
      file_mode cfg (self w) = false /\
      exists m, text = render cfg m /\ len m <= 4050
  | SendDocument d =>
      file_mode cfg (self w) = true /\ d = chunk cfg (self w)
  end.

(** The payloads of the requests, lines 43, 66-68 and the first lines of
    each remote operation.  A dictionary is a list of keys with their
    values in insertion order, each key at most once. *)
Module Payload.

Inductive value :=
| VBool (b : bool)
| VInt (z : Z)
| VStr (s : str)
| VNone.

Definition dict := list (string * value).

(** [d.get(k)]. *)
Fixpoint get (k : string) (d : dict) : option value :=
  match d with
  | [] => None
  | (k', v) :: d' => if String.eqb k k' then Some v else get k d'
  end.

(** [d[k] = v], also [d.update({k: v})]. *)
Fixpoint set (k : string) (v : value) (d : dict) : dict :=
  match d with
  | [] => [(k, v)]
  | (k', v') :: d' =>
      if String.eqb k k' then (k', v) :: d' else (k', v') :: set k v d'
  end.

(** [del d[k]], any [KeyError] suppressed (line 177). *)
Fixpoint del (k : string) (d : dict) : dict :=
  match d with
  | [] => []
  | (k', v') :: d' =>
      if String.eqb k k' then d' else (k', v') :: del k d'
  end.

(** [self.payload] as [__init__] leaves it. *)
Definition base (log_chat_id forum_msg_id : Z) : dict :=
  let payload := [("disable_web_page_preview"%string, VBool true);
                  ("parse_mode"%string, VStr (lit "Markdown"%string))] in
  let payload := set "chat_id"%string (VInt log_chat_id) payload in
  if 0 <? forum_msg_id
  then set "message_thread_id"%string (VInt forum_msg_id) payload
  else payload.

Definition of_id (mid : option Z) : value :=
  match mid with
  | Some z => VInt z
  | None => VNone
  end.

Definition caption : str :=
  lit "Too many logs for text messages! This file contains the logs."%string.

(** The method and the payload of a request: lines 130, 137-140, 149-151,
    160-163 and 171-178. *)
Definition of_call (payload : dict) (c : call) : string * dict :=
  match c with
  | GetMe => ("getMe"%string, [])
  | SendMessage text =>
      ("sendMessage"%string, set "text"%string (VStr text) payload)
  | EditMessageText mid text =>
      ("editMessageText"%string,
       set "text"%string (VStr text)
         (set "message_id"%string (of_id mid) payload))
  | SendDocument _ =>
      ("sendDocument"%string,
       del "disable_web_page_preview"%string
         (set "caption"%string (VStr caption) payload))
  end.

End Payload.

(** The gate inputs are the same, and the floor is the same or a
    [retry_after] of a response of [rs] that reaches [handle_error]. *)
Definition kept (rs : replies) (s s' : state) : Prop :=
  same_gate s s' /\ floor_from (handled rs) s s'.

(** The requests that [compose] may post: an edit of at most 4050
    characters of log under the title, or a send. *)
Definition composed (cfg : config) (c : call) : Prop :=
  match c with
  | EditMessageText _ text => exists m, text = render cfg m /\ len m <= 4050
  | SendMessage _ => True
  | GetMe => False
  | SendDocument _ => False
  end.

(* ================================================================== *)
(** * Properties *)

(* ------------------------------------------------------------------ *)
(** ** Facts about slices and [rsplit] *)

Section StrFacts.

Lemma len_nonneg (s : str) : (0 <= len s)%Z.
Proof. unfold len; lia. Qed.

Lemma len_app (a b : str) : len (a ++ b) = (len a + len b)%Z.
Proof. unfold len; rewrite length_app; lia. Qed.

Lemma upto_from (n : Z) (s : str) : upto n s ++ from n s = s.
Proof. apply firstn_skipn. Qed.

Lemma len_upto_le (n : Z) (s : str) : (0 <= n)%Z -> (len (upto n s) <= n)%Z.
Proof.
  intros Hn; unfold len, upto.
  pose proof (firstn_le_length (Z.to_nat n) s); lia.
Qed.

Lemma len_upto_le_len (n : Z) (s : str) : (len (upto n s) <= len s)%Z.
Proof.
  unfold len, upto; rewrite length_firstn; lia.
Qed.

Lemma from_len_app (a b : str) : from (len a) (a ++ b) = b.
Proof.
  unfold from, len; rewrite Nat2Z.id.
  rewrite skipn_app, skipn_all, Nat.sub_diag; reflexivity.
Qed.

Lemma is_empty_true (s : str) : is_empty s = true <-> s = [].
Proof. destruct s; simpl; split; congruence. Qed.

Lemma str_eqb_true (a b : str) : str_eqb a b = true <-> a = b.
Proof. unfold str_eqb; destruct (list_eq_dec ascii_dec a b); split; congruence. Qed.

Lemma str_eqb_false (a b : str) : str_eqb a b = false <-> a <> b.
Proof. unfold str_eqb; destruct (list_eq_dec ascii_dec a b); split; congruence. Qed.

(** [rcut] splits at a newline and leaves none to its right. *)
Lemma rcut_some (s a b : str) :
  rcut s = Some (a, b) -> s = a ++ NL :: b /\ ~ In NL b.
Proof.
  revert a b; induction s as [|c t IH]; simpl; intros a b H; [discriminate|].
  destruct (rcut t) as [[a' b']|] eqn:E.
  - inversion H; subst; clear H.
    destruct (IH a' b eq_refl) as [-> Hb]; split; [reflexivity|assumption].
  - destruct (Ascii.eqb c NL) eqn:Ec; [|discriminate].
    inversion H; subst; clear H.
    apply Ascii.eqb_eq in Ec; subst c; split; [reflexivity|].
    clear IH; induction b as [|d u IHu]; simpl; [tauto|].
    simpl in E. destruct (rcut u) as [[? ?]|]; [discriminate|].
    destruct (Ascii.eqb d NL) eqn:Ed; [discriminate|].
    apply Ascii.eqb_neq in Ed. intros [->|Hin]; [congruence|].
    apply IHu; [reflexivity|assumption].
Qed.

Lemma rcut_none (s : str) : rcut s = None <-> ~ In NL s.
Proof.
  induction s as [|c t IH]; simpl; [tauto|].
  destruct (rcut t) as [[a b]|] eqn:E.
  - split; [discriminate|]. intros H; exfalso.
    destruct IH as [_ IH]. assert (Hn : ~ In NL t) by tauto.
    specialize (IH Hn); discriminate.
  - destruct (Ascii.eqb c NL) eqn:Ec.
    + apply Ascii.eqb_eq in Ec; subst; split; [discriminate|tauto].
    + apply Ascii.eqb_neq in Ec. destruct IH as [IH _].
      specialize (IH eq_refl). split; [|reflexivity].
      intros _ [->|Hin]; [congruence|tauto].
Qed.

(** The first component of [rsplit] is a prefix of the string. *)
Lemma item0_rsplit1_prefix (s : str) :
  exists r, s = item0 (rsplit1 s) ++ r.
Proof.
  unfold rsplit1, item0; destruct (rcut s) as [[a b]|] eqn:E; simpl.
  - exists (NL :: b). apply rcut_some in E; tauto.
  - exists []; rewrite app_nil_r; reflexivity.
Qed.

Lemma len_item0_rsplit1 (s : str) : (len (item0 (rsplit1 s)) <= len s)%Z.
Proof.
  destruct (item0_rsplit1_prefix s) as [r Hr].
  rewrite Hr at 2; rewrite len_app; pose proof (len_nonneg r); lia.
Qed.

End StrFacts.

Section ChunkFacts.

(** A cut at a newline that has none to its right is the cut [rcut] finds. *)
Lemma rcut_complete (a b : str) : ~ In NL b -> rcut (a ++ NL :: b) = Some (a, b).
Proof.
  intros Hb. apply rcut_none in Hb.
  induction a as [|c a IH]; simpl.
  - rewrite Hb. reflexivity.
  - rewrite IH. reflexivity.
Qed.

Lemma whole_lines_prefix (text : str) : exists r, text = whole_lines text ++ r.
Proof.
  unfold whole_lines. destruct (is_empty (item0 (rsplit1 text))).
  - exists []. rewrite app_nil_r. reflexivity.
  - apply item0_rsplit1_prefix.
Qed.

Lemma whole_lines_from (text : str) :
  whole_lines text ++ from (len (whole_lines text)) text = text.
Proof.
  destruct (whole_lines_prefix text) as [r Hr].
  remember (whole_lines text) as c eqn:Ec.
  rewrite Hr. rewrite from_len_app. reflexivity.
Qed.

Lemma len_whole_lines (text : str) : len (whole_lines text) <= len text.
Proof.
  destruct (whole_lines_prefix text) as [r Hr].
  rewrite Hr at 2. rewrite len_app. pose proof (len_nonneg r). lia.
Qed.

(** No newline: the text is kept whole. *)
Lemma whole_lines_no_newline (text : str) :
  ~ In NL text -> whole_lines text = text.
Proof.
  intros H. apply rcut_none in H. unfold whole_lines, rsplit1. rewrite H.
  simpl. destruct (is_empty text); reflexivity.
Qed.

(** A last newline with text before it: that text is kept. *)
Lemma whole_lines_cut (a b : str) :
  a <> [] -> ~ In NL b -> whole_lines (a ++ NL :: b) = a.
Proof.
  intros Ha Hb. unfold whole_lines, rsplit1. rewrite (rcut_complete a b Hb).
  simpl. destruct a; [congruence|reflexivity].
Qed.

(** The only newline comes first: the text is kept whole. *)
Lemma whole_lines_leading_newline (b : str) :
  ~ In NL b -> whole_lines (NL :: b) = NL :: b.
Proof.
  intros Hb. unfold whole_lines, rsplit1.
  pose proof (rcut_complete [] b Hb) as E. simpl app in E.
  rewrite E. reflexivity.
Qed.

(** The kept text is empty only when the text is. *)
Lemma whole_lines_nil (text : str) : whole_lines text = [] -> text = [].
Proof.
  unfold whole_lines. destruct (is_empty (item0 (rsplit1 text))) eqn:E.
  - tauto.
  - intros H. rewrite H in E. discriminate.
Qed.

Lemma text_chunk_from (buf : str) :
  text_chunk buf ++ from (len (text_chunk buf)) buf = buf.
Proof.
  unfold text_chunk.
  destruct (whole_lines_prefix (upto 4050 buf)) as [r Hr].
  remember (whole_lines (upto 4050 buf)) as c eqn:Ec.
  pose proof (upto_from 4050 buf) as Hb. rewrite Hr, <- app_assoc in Hb.
  rewrite <- Hb at 1. rewrite from_len_app. exact Hb.
Qed.

(** The kept lines of the first [n] characters, and the rest. *)
Lemma whole_lines_from_cap (text : str) :
  whole_lines (upto 4050 text)
    ++ from (len (whole_lines (upto 4050 text))) text = text.
Proof. exact (text_chunk_from text). Qed.

Lemma len_text_chunk (buf : str) : len (text_chunk buf) <= 4050.
Proof.
  unfold text_chunk.
  pose proof (len_whole_lines (upto 4050 buf)).
  pose proof (len_upto_le 4050 buf). lia.
Qed.

End ChunkFacts.

(* ------------------------------------------------------------------ *)
(** ** The rate-limit governor *)

Section Governor.

Lemma requests_app (a b : list event) :
  requests (a ++ b) = requests a ++ requests b.
Proof. apply flat_map_app. Qed.

Lemma requests_print (evs : list event) (d : diag) :
  requests (evs ++ [Print d]) = requests evs.
Proof. rewrite requests_app. simpl. apply app_nil_r. Qed.

Lemma requests_request (evs : list event) (c : call) :
  requests (evs ++ [Request c]) = requests evs ++ [c].
Proof. rewrite requests_app. reflexivity. Qed.

(** [handle_error] finishes, posts nothing, and at most moves the floor. *)
Lemma handle_error_run (resp : response) (w : world) :
  fst (handle_error resp w) = Done tt /\
  requests (io (snd (handle_error resp w))) = requests (io w) /\
  self (snd (handle_error resp w)) =
    match retry_after_of resp with
    | Some v => if v =? 0 then self w else set_floodwait v (self w)
    | None => self w
    end.
Proof.
  unfold handle_error, retry_after_of.
  destruct (parameters resp) as [[ra mg]|]; simpl.
  - destruct ra as [v|]; simpl.
    + destruct (v =? 0); simpl; [destruct w; auto|].
      unfold bind, update, print, tell; simpl.
      rewrite requests_print. auto.
    + destruct mg; simpl; [destruct w; auto|].
      destruct (is_unauthorized resp); unfold print, tell, ret; simpl;
        [destruct w; auto|rewrite requests_print; auto].
  - destruct (is_unauthorized resp); unfold print, tell, ret; simpl;
      [destruct w; auto|rewrite requests_print; auto].
Qed.

(** A [retry_after] that is not zero becomes the floor; nothing else moves. *)
Lemma handle_error_floor (resp : response) (w : world) (v : Z) :
  retry_after_of resp = Some v -> v <> 0 ->
  floodwait (self (snd (handle_error resp w))) = v /\
  last_update (self (snd (handle_error resp w))) = last_update (self w).
Proof.
  intros Hra Hv. destruct (handle_error_run resp w) as (_ & _ & Hs).
  rewrite Hs, Hra. destruct (Z.eqb_spec v 0); [contradiction|]. auto.
Qed.

End Governor.

(** C10 (as amended): [handle_error] leaves the pending buffer, the
    committed text, the message identifier, the line counter and the
    last-flush timestamp as they are for every response; it sets the
    governor floor to [retry_after] when the response carries a
    [retry_after] that is not zero, and changes no attribute at all in
    every other case, a [retry_after] of zero included. *)
Theorem C10_handle_error_frame (resp : response) (w : world) :
  let w' := snd (handle_error resp w) in
  messages (self w') = messages (self w) /\
  current_msg (self w') = current_msg (self w) /\
  message_id (self w') = message_id (self w) /\
  lines (self w') = lines (self w) /\
  last_update (self w') = last_update (self w) /\
  (forall v, retry_after_of resp = Some v -> v <> 0 ->
             floodwait (self w') = v) /\
  (truthy_int (retry_after_of resp) = false -> self w' = self w).
Proof.
  destruct (handle_error_run resp w) as (_ & _ & Hs).
  cbv zeta. rewrite Hs. clear Hs.
  destruct (retry_after_of resp) as [v|]; simpl.
  - destruct (Z.eqb_spec v 0) as [->|Hv]; simpl.
    + repeat split; auto. intros v Hv; inversion Hv; subst. congruence.
    + repeat split; auto.
      * intros v' Hv'; inversion Hv'; subst. reflexivity.
      * discriminate.
  - repeat split; auto. discriminate.
Qed.

Lemma C10_handle_error_frame_witness :
  floodwait (self (snd (handle_error (Sample.flood 30)
                          (Sample.world_of init_state)))) = 30
  /\ self (snd (handle_error (Sample.success 7)
                  (Sample.world_of init_state))) = init_state.
Proof.
  split.
  - destruct (C10_handle_error_frame (Sample.flood 30)
                (Sample.world_of init_state)) as (_ & _ & _ & _ & _ & H & _).
    apply H; [reflexivity|lia].
  - destruct (C10_handle_error_frame (Sample.success 7)
                (Sample.world_of init_state)) as (_ & _ & _ & _ & _ & _ & H).
    apply H. reflexivity.
Defined.

(** C10, as stated, fails: a response that carries [retry_after = 0] does
    not set the floor to that value; a floor of 30 stays 30. *)
Lemma C10_zero_retry_after_keeps_floor :
  let resp := Sample.flood 0 in
  let w := Sample.world_of (set_floodwait 30 init_state) in
  retry_after_of resp = Some 0 /\
  floodwait (self w) = 30 /\
  floodwait (self (snd (handle_error resp w))) = 30.
Proof. repeat split. Qed.

(* ------------------------------------------------------------------ *)
(** ** Intake *)

Section Intake.

Variable cfg : config.

Lemma starts_with_spec (p s : str) :
  starts_with p s = true <-> exists b, s = p ++ b.
Proof.
  revert s; induction p as [|a p IH]; intros s; simpl.
  - split; [intros _; exists s; reflexivity|reflexivity].
  - destruct s as [|c s]; simpl.
    + split; [discriminate|intros [b Hb]; discriminate].
    + rewrite andb_true_iff, Ascii.eqb_eq, IH. split.
      * intros [-> [b ->]]. exists b. reflexivity.
      * intros [b Hb]. inversion Hb; subst. split; [reflexivity|].
        exists b. reflexivity.
Qed.

(** [contains] is the substring test. *)
Lemma contains_spec (p s : str) :
  contains p s = true <-> exists a b, s = a ++ p ++ b.
Proof.
  induction s as [|c s IH].
  - simpl. rewrite orb_false_r, starts_with_spec. split.
    + intros [b Hb]. exists [], b. exact Hb.
    + intros [a [b Hab]]. destruct a; [exists b; exact Hab|discriminate].
  - change (contains p (c :: s))
      with (starts_with p (c :: s) || contains p s).
    rewrite orb_true_iff, starts_with_spec, IH. split.
    + intros [[b Hb]|[a [b Hab]]].
      * exists [], b. exact Hb.
      * exists (c :: a), b. simpl. rewrite Hab. reflexivity.
    + intros [a [b Hab]]. destruct a as [|d a].
      * left. exists b. exact Hab.
      * right. inversion Hab; subst. exists a, b. reflexivity.
Qed.

(** A line is ignored exactly when a configured string occurs in it. *)
Lemma ignored_spec (msg : str) :
  ignored cfg msg = true <->
  exists l m a b, ignore_match cfg = Some l /\ In m l /\ msg = a ++ m ++ b.
Proof.
  unfold ignored. destruct (ignore_match cfg) as [l|].
  - rewrite existsb_exists. split.
    + intros [m [Hin Hc]]. apply contains_spec in Hc.
      destruct Hc as [a [b Hab]]. exists l, m, a, b. auto.
    + intros (l' & m & a & b & Hl & Hin & Hab). inversion Hl; subst l'.
      exists m. split; [assumption|]. apply contains_spec. eauto.
  - split; [discriminate|]. intros (l & m & a & b & Hl & _). discriminate.
Qed.

(** A float that is at least an int is at least every smaller int. *)
Lemma ge_int_mono (f : float) (z1 z2 : Z) :
  z1 <= z2 -> ge_int f z2 = true -> ge_int f z1 = true.
Proof.
  intros Hz. unfold ge_int. destruct (exact f) as [q|]; [|tauto].
  rewrite !Qle_bool_iff. intros H.
  eapply Qle_trans; [|exact H]. rewrite <- Zle_Qle. exact Hz.
Qed.

(** On a finite float the comparison is the one of the exact values. *)
Lemma ge_int_exact (f : float) (q : Q) (z : Z) :
  exact f = Some q -> (ge_int f z = true <-> (inject_Z z <= q)%Q).
Proof. intros H. unfold ge_int. rewrite H. apply Qle_bool_iff. Qed.

(** The effect of [emit] on a line that is kept. *)
Lemma emit_kept (msg : str) (t1 t2 : float) (s : state) :
  ignored cfg msg = false ->
  let fired :=
    gate cfg (t1 - last_update s)%float (set_lines (lines s + 1) s) in
  snd (emit cfg msg t1 t2 s) = fired /\
  messages (fst (emit cfg msg t1 t2 s)) = messages s ++ msg ++ [NL] /\
  current_msg (fst (emit cfg msg t1 t2 s)) = current_msg s /\
  message_id (fst (emit cfg msg t1 t2 s)) = message_id s /\
  lines (fst (emit cfg msg t1 t2 s)) = (if fired then 0 else lines s + 1) /\
  floodwait (fst (emit cfg msg t1 t2 s)) = (if fired then 0 else floodwait s) /\
  last_update (fst (emit cfg msg t1 t2 s)) = (if fired then t2 else last_update s).
Proof.
  intros Hi. unfold emit. rewrite Hi. cbv zeta.
  unfold gate; simpl.
  destruct (ge_int _ _ && (minimum cfg <=? lines s + 1)); simpl.
  - destruct (Z.eqb_spec (floodwait s) 0) as [E|E]; simpl; auto 10.
  - auto 10.
Qed.

Lemma emit_ignored (msg : str) (t1 t2 : float) (s : state) :
  ignored cfg msg = true -> emit cfg msg t1 t2 s = (s, false).
Proof. intros Hi. unfold emit. rewrite Hi. reflexivity. Qed.

(** The gate as a conjunction. *)
Lemma gate_spec (diff : float) (s : state) :
  gate cfg diff s = true <->
  ge_int diff (Z.max (wait_time cfg) (floodwait s)) = true /\
  minimum cfg <= lines s.
Proof.
  unfold gate. rewrite andb_true_iff, Z.leb_le. tauto.
Qed.

(** Below the floor the gate stays shut. *)
Lemma gate_below_floor (diff : float) (s : state) :
  ge_int diff (floodwait s) = false -> gate cfg diff s = false.
Proof.
  intros Hlt. destruct (gate cfg diff s) eqn:E; [|reflexivity].
  apply gate_spec in E. destruct E as [E _].
  apply (ge_int_mono diff (floodwait s)) in E; [congruence|lia].
Qed.

(** No record that arrives before the floor has elapsed creates a task,
    and the floor and the timestamp stay as they are meanwhile. *)
Lemma feed_below_floor (es : list (str * float * float)) (s : state) :
  Forall (fun e =>
            ge_int (snd (fst e) - last_update s)%float (floodwait s) = false)
         es ->
  Forall (fun b => b = false) (snd (feed cfg es s)) /\
  floodwait (fst (feed cfg es s)) = floodwait s /\
  last_update (fst (feed cfg es s)) = last_update s.
Proof.
  revert s. induction es as [|[[msg t1] t2] es IH]; intros s Hall.
  - simpl. auto.
  - inversion Hall as [|e es' Hhd Htl]; subst. simpl in Hhd.
    assert (Hemit : snd (emit cfg msg t1 t2 s) = false /\
                    floodwait (fst (emit cfg msg t1 t2 s)) = floodwait s /\
                    last_update (fst (emit cfg msg t1 t2 s)) = last_update s).
    { destruct (ignored cfg msg) eqn:Hi.
      - rewrite (emit_ignored msg t1 t2 s Hi). auto.
      - destruct (emit_kept msg t1 t2 s Hi) as (Hb & _ & _ & _ & _ & Hf & Hu).
        rewrite (gate_below_floor (t1 - last_update s)%float
                   (set_lines (lines s + 1) s) Hhd) in Hb, Hf, Hu. auto. }
    destruct Hemit as (Hb & Hf & Hu).
    simpl. destruct (emit cfg msg t1 t2 s) as [s1 b]. simpl in *. subst b.
    assert (Htl' : Forall (fun e =>
        ge_int (snd (fst e) - last_update s1)%float (floodwait s1) = false)
        es).
    { rewrite Hf, Hu. exact Htl. }
    destruct (IH s1 Htl') as (Hbs & Hf' & Hu').
    destruct (feed cfg es s1) as [s2 bs]. simpl in *.
    split; [constructor; [reflexivity|assumption]|].
    split; congruence.
Qed.

(** A kept line that leaves the counter below [minimum_lines] is buffered
    and counted, and creates no task. *)
Lemma emit_shut (msg : str) (t1 t2 : float) (s : state) :
  ignored cfg msg = false ->
  minimum cfg > lines s + 1 ->
  emit cfg msg t1 t2 s =
    (set_messages (messages s ++ msg ++ [NL]) (set_lines (lines s + 1) s),
     false).
Proof.
  intros Hi Hm. unfold emit. rewrite Hi. cbv zeta.
  unfold gate. simpl.
  replace (minimum cfg <=? lines s + 1) with false
    by (symmetry; apply Z.leb_gt; lia).
  rewrite andb_false_r. reflexivity.
Qed.

End Intake.

(** The elapsed time is rounded as the machine rounds it: with the
    timestamp at the double nearest 0.1 and the clock at the double
    nearest 5.1, the difference computed is exactly 5 although the exact
    difference of the two doubles is below 5, and the default handler
    schedules a flush. *)
Example emit_rounds_elapsed_time :
  let last := 0x1.999999999999ap-4%float in
  let clock := 0x1.4666666666666p+2%float in
  (clock - last)%float = 5%float /\
  snd (emit default_config (lit "a"%string) clock clock
         (set_last_update last init_state)) = true.
Proof. split; vm_compute; reflexivity. Qed.

(** C8 (as amended): for a handler built by [__init__], a line in which a
    configured ignore-string occurs (the string given, when it is not
    empty, or a member of the list given) is dropped by [emit] with the
    buffer, the counter and every other attribute unchanged and no flush
    scheduled; any other line is appended to the buffer followed by a
    newline, and the counter is incremented by exactly one, unless the
    line makes the gate fire: then the counter is reset to zero in the
    same call.  With "DEBUG" configured, "DEBUG: heartbeat" is dropped
    and "INFO: ok" is buffered. *)
Theorem C8_ignore_filter (title_arg : str) (ignore : ignore_arg)
    (update_interval minimum_lines pending_logs : Z)
    (msg : str) (t1 t2 : float) (s : state) :
  let cfg := init_config title_arg ignore update_interval minimum_lines
               pending_logs in
  (ignored cfg msg = true <->
   match ignore with
   | IgnoreStr x => x <> [] /\ exists a b, msg = a ++ x ++ b
   | IgnoreList l => exists x a b, In x l /\ msg = a ++ x ++ b
   end) /\
  (ignored cfg msg = true -> emit cfg msg t1 t2 s = (s, false)) /\
  (ignored cfg msg = false ->
   let fired :=
     gate cfg (t1 - last_update s)%float (set_lines (lines s + 1) s) in
   snd (emit cfg msg t1 t2 s) = fired /\
   messages (fst (emit cfg msg t1 t2 s)) = messages s ++ msg ++ [NL] /\
   lines (fst (emit cfg msg t1 t2 s)) = (if fired then 0 else lines s + 1)) /\
  (let dbg := init_config (lit "TGLogging-black"%string)
                (IgnoreStr (lit "DEBUG"%string)) 5 1 200000 in
   emit dbg (lit "DEBUG: heartbeat"%string) t1 t2 s = (s, false) /\
   messages (fst (emit dbg (lit "INFO: ok"%string) t1 t2 s))
     = messages s ++ lit "INFO: ok"%string ++ [NL]).
Proof.
  intros cfg. split; [|split; [apply emit_ignored|split]].
  - rewrite (ignored_spec cfg msg). subst cfg. unfold init_config. simpl.
    destruct ignore as [x|l].
    + destruct x as [|c x]; simpl.
      * split; [intros (l & m & a & b & Hl & _); discriminate|].
        intros [H _]. congruence.
      * replace (0 <? len (c :: x)) with true
          by (symmetry; apply Z.ltb_lt; unfold len; simpl length; lia).
        split.
        -- intros (l & m & a & b & Hl & Hin & Hm). inversion Hl; subst l.
           destruct Hin as [<-|[]]. split; [discriminate|]. eauto.
        -- intros [_ (a & b & Hm)]. exists [c :: x], (c :: x), a, b.
           simpl. auto.
    + destruct l as [|y l]; simpl.
      * split; [intros (l & m & a & b & Hl & _); discriminate|].
        intros (x & a & b & [] & _).
      * replace (0 <? Z.of_nat (length (y :: l))) with true
          by (symmetry; apply Z.ltb_lt; simpl length; lia).
        split.
        -- intros (l' & m & a & b & Hl & Hin & Hm). inversion Hl; subst l'.
           eauto.
        -- intros (x & a & b & Hin & Hm). exists (y :: l), x, a, b. auto.
  - intros Hi.
    destruct (emit_kept cfg msg t1 t2 s Hi) as (H1 & H2 & _ & _ & H3 & _).
    auto.
  - cbv zeta. split.
    + apply emit_ignored. reflexivity.
    + apply emit_kept. reflexivity.
Qed.

Lemma C8_ignore_filter_witness :
  let dbg := init_config (lit "TGLogging-black"%string)
               (IgnoreList [lit "DEBUG"%string; lit "TRACE"%string]) 5 3 200000 in
  emit dbg (lit "a TRACE line"%string) 1000 1000 init_state = (init_state, false)
  /\ lines (fst (emit dbg (lit "INFO: ok"%string) 1000 1000 init_state)) = 1
  /\ lines (fst (emit default_config (lit "INFO: ok"%string) 1000 1000
                   (set_lines 4 init_state))) = 0.
Proof.
  intros dbg. split; [|split].
  - destruct (C8_ignore_filter (lit "TGLogging-black"%string)
                (IgnoreList [lit "DEBUG"%string; lit "TRACE"%string])
                5 3 200000 (lit "a TRACE line"%string) 1000 1000
                init_state) as (_ & H & _).
    apply H. reflexivity.
  - destruct (C8_ignore_filter (lit "TGLogging-black"%string)
                (IgnoreList [lit "DEBUG"%string; lit "TRACE"%string])
                5 3 200000 (lit "INFO: ok"%string) 1000 1000
                init_state) as (_ & _ & H & _).
    destruct (H eq_refl) as (_ & _ & Hl).
    refine (eq_trans Hl _). reflexivity.
  - destruct (C8_ignore_filter (lit "TGLogging-black"%string) (IgnoreStr [])
                5 1 200000 (lit "INFO: ok"%string) 1000 1000
                (set_lines 4 init_state)) as (_ & _ & H & _).
    destruct (H eq_refl) as (_ & _ & Hl).
    refine (eq_trans Hl _). reflexivity.
Defined.

(** C8, as stated, fails on the counter: with the default handler, new,
    the line "INFO: ok" logged at clock reading 1000 is buffered and
    makes the gate fire, and the counter is 0 after the call, not 1. *)
Lemma C8_counter_reset_when_gate_fires :
  let r := emit default_config (lit "INFO: ok"%string) 1000 1000 init_state in
  ignored default_config (lit "INFO: ok"%string) = false /\
  lines init_state = 0 /\
  messages (fst r) = lit "INFO: ok"%string ++ [NL] /\
  snd r = true /\
  lines (fst r) = 0.
Proof. repeat split. Qed.

(* ------------------------------------------------------------------ *)
(** ** The remote operations, one run at a time *)

Section Frames.

Context {R : state -> state -> Prop}.
Hypothesis R_refl : forall s, R s s.
Hypothesis R_trans : forall s1 s2 s3, R s1 s2 -> R s2 s3 -> R s1 s3.

Lemma frames_ret {A : Type} (a : A) : frames R (ret a).
Proof. intros w. apply R_refl. Qed.

Lemma frames_raise {A : Type} (e : exn) : frames R (@raise A e).
Proof. intros w. apply R_refl. Qed.

Lemma frames_tell (e : event) : frames R (tell e).
Proof. intros w. apply R_refl. Qed.

Lemma frames_get : frames R get_self.
Proof. intros w. apply R_refl. Qed.

Lemma frames_bind {A B : Type} (m : M A) (f : A -> M B) :
  frames R m -> (forall a, frames R (f a)) -> frames R (bind m f).
Proof.
  intros Hm Hf w. unfold bind. specialize (Hm w).
  destruct (m w) as [[a|e] w1]; simpl in *.
  - eapply R_trans; [exact Hm|apply Hf].
  - exact Hm.
Qed.

Lemma frames_update (f : state -> state) :
  (forall s, R s (f s)) -> frames R (update f).
Proof. intros Hf w. apply Hf. Qed.

Lemma frames_send_request (c : call) (r : response) :
  frames R (send_request c r).
Proof.
  unfold send_request. apply frames_bind; [apply frames_tell|].
  intros _. apply frames_ret.
Qed.

End Frames.

Section Operations.

Variable cfg : config.

Lemma but_floor_refl (s : state) : but_floor s s.
Proof. unfold but_floor. auto. Qed.

Lemma but_floor_trans (s1 s2 s3 : state) :
  but_floor s1 s2 -> but_floor s2 s3 -> but_floor s1 s3.
Proof. unfold but_floor. intuition congruence. Qed.

Lemma same_text_refl (s : state) : same_text s s.
Proof. unfold same_text. auto. Qed.

Lemma same_text_trans (s1 s2 s3 : state) :
  same_text s1 s2 -> same_text s2 s3 -> same_text s1 s3.
Proof. unfold same_text. intuition congruence. Qed.

Lemma same_buffer_trans (s1 s2 s3 : state) :
  same_buffer s1 s2 -> same_buffer s2 s3 -> same_buffer s1 s3.
Proof. unfold same_buffer. congruence. Qed.

Lemma handle_error_but_floor (resp : response) :
  frames but_floor (handle_error resp).
Proof.
  intros w. destruct (handle_error_run resp w) as (_ & _ & Hs). rewrite Hs.
  destruct (retry_after_of resp) as [v|]; [destruct (v =? 0)|];
    unfold but_floor; simpl; auto.
Qed.

Lemma handle_error_same_text (resp : response) :
  frames same_text (handle_error resp).
Proof.
  intros w. destruct (handle_error_but_floor resp w) as (H1 & H2 & _).
  split; assumption.
Qed.

Lemma send_request_run (c : call) (r : response) (w : world) :
  send_request c r w =
    (Done r, {| self := self w; io := io w ++ [Request c] |}).
Proof. reflexivity. Qed.

(** [edit_message] finishes, posts one edit of the current message, and
    moves at most the floor. *)
Lemma edit_message_run (rs : replies) (m : str) (w : world) :
  fst (edit_message cfg rs m w) = Done tt /\
  requests (io (snd (edit_message cfg rs m w))) =
    requests (io w) ++ [EditMessageText (message_id (self w)) (render cfg m)] /\
  but_floor (self w) (self (snd (edit_message cfg rs m w))).
Proof.
  unfold edit_message, bind, get_self. rewrite send_request_run.
  destruct (ok (on_edit rs)); simpl.
  - rewrite requests_request. auto using but_floor_refl.
  - match goal with |- context [handle_error ?r ?w1] =>
      destruct (handle_error_run r w1) as (H1 & H2 & _);
      pose proof (handle_error_but_floor r w1) as H3 end.
    rewrite H1, H2. simpl in *. rewrite requests_request. auto.
Qed.

(** [send_as_file] finishes, posts the document, and moves at most the
    floor. *)
Lemma send_as_file_run (rs : replies) (logs : str) (w : world) :
  fst (send_as_file rs logs w) = Done tt /\
  requests (io (snd (send_as_file rs logs w))) =
    requests (io w) ++ [SendDocument logs] /\
  but_floor (self w) (self (snd (send_as_file rs logs w))).
Proof.
  unfold send_as_file, bind. rewrite send_request_run.
  destruct (ok (on_document rs)); simpl.
  - unfold print, tell. simpl. rewrite requests_print, requests_request.
    auto using but_floor_refl.
  - match goal with |- context [handle_error ?r ?w1] =>
      destruct (handle_error_run r w1) as (H1 & H2 & _);
      pose proof (handle_error_but_floor r w1) as H3 end.
    rewrite H1, H2. simpl in *. rewrite requests_request. auto.
Qed.

(** [send_message] posts the rendered text; on success the identifier of
    the new message replaces the old one, on an error response only the
    floor may move, and a success without a [result] raises. *)
Lemma send_message_run (rs : replies) (m : str) (w : world) :
  let w' := snd (send_message cfg rs m w) in
  requests (io w') = requests (io w) ++ [SendMessage (render cfg m)] /\
  same_text (self w) (self w') /\
  (ok (on_send rs) = false ->
     fst (send_message cfg rs m w) = Done tt /\
     message_id (self w') = message_id (self w)) /\
  (forall r, ok (on_send rs) = true -> result (on_send rs) = Some r ->
     fst (send_message cfg rs m w) = Done tt /\
     message_id (self w') = r_message_id r) /\
  (ok (on_send rs) = true -> result (on_send rs) = None ->
     fst (send_message cfg rs m w) = Raised AttributeError).
Proof.
  unfold send_message, bind. rewrite send_request_run.
  destruct (ok (on_send rs)); simpl.
  - destruct (result (on_send rs)) as [r|]; simpl;
      rewrite requests_request; unfold same_text; simpl.
    + split; [reflexivity|]. split; [auto|]. split; [discriminate|].
      split; [|discriminate].
      intros r' _ Hr. inversion Hr; subst. auto.
    + split; [reflexivity|]. split; [auto|]. split; [discriminate|].
      split; [discriminate|auto].
  - match goal with |- context [handle_error ?r ?w1] =>
      destruct (handle_error_run r w1) as (H1 & H2 & _);
      destruct (handle_error_but_floor r w1) as (H3 & H4 & H5 & _) end.
    rewrite H1, H2. simpl in *. rewrite requests_request.
    unfold same_text.
    split; [reflexivity|]. split; [auto|]. split; [auto|].
    split; discriminate.
Qed.

Lemma send_message_same_text (rs : replies) (m : str) :
  frames same_text (send_message cfg rs m).
Proof. intros w. apply send_message_run. Qed.

Lemma edit_message_same_text (rs : replies) (m : str) :
  frames same_text (edit_message cfg rs m).
Proof.
  intros w. destruct (edit_message_run rs m w) as (_ & _ & H1 & H2 & _).
  split; assumption.
Qed.

Lemma initialise_same_text (rs : replies) : frames same_text (initialise rs).
Proof.
  unfold initialise.
  apply (frames_bind same_text_trans);
    [apply (frames_send_request same_text_refl same_text_trans)|].
  intros res. destruct (ok res); [|apply handle_error_same_text].
  destruct (result res); [|apply (frames_raise same_text_refl)].
  apply frames_update. intros s. unfold same_text. auto.
Qed.

Lemma verify_bot_same_text (rs : replies) : frames same_text (verify_bot rs).
Proof.
  unfold verify_bot.
  apply (frames_bind same_text_trans);
    [apply (frames_send_request same_text_refl same_text_trans)|].
  intros res. destruct (is_unauthorized res);
    [apply (frames_ret same_text_refl)|].
  destruct (result res) as [r|]; [|apply (frames_raise same_text_refl)].
  destruct (truthy_str (r_username r)); apply (frames_ret same_text_refl).
Qed.

Lemma bootstrap_same_text (rs : replies) : frames same_text (bootstrap rs).
Proof.
  unfold bootstrap.
  apply (frames_bind same_text_trans);
    [apply (frames_get same_text_refl)|].
  intros s. destruct (negb (truthy_int (message_id s)));
    [|apply (frames_ret same_text_refl)].
  apply (frames_bind same_text_trans);
    [apply verify_bot_same_text|].
  intros [[uname is_alive]|]; [|apply (frames_raise same_text_refl)].
  apply (frames_bind same_text_trans);
    [|intros _; apply initialise_same_text].
  destruct (negb is_alive);
    [apply (frames_tell same_text_refl)|apply (frames_ret same_text_refl)].
Qed.

End Operations.

(* ------------------------------------------------------------------ *)
(** ** The flush engine, one run at a time *)

Section Flush.

Variable cfg : config.

Lemma frames_weaken {A : Type} {R R' : state -> state -> Prop} {m : M A} :
  (forall s s', R s s' -> R' s s') -> frames R m -> frames R' m.
Proof. intros HR Hm w. apply HR, Hm. Qed.

Lemma same_text_buffer (s s' : state) : same_text s s' -> same_buffer s s'.
Proof. intros [H _]. exact H. Qed.

Lemma same_buffer_refl (s : state) : same_buffer s s.
Proof. reflexivity. Qed.

(** [compose] when the candidate is longer than the cap, lines 110-119. *)
Lemma compose_overflow_eq (rs : replies) (msg : str) (w : world) :
  let candidate := current_msg (self w) ++ msg in
  let left := whole_lines (upto 4050 candidate) in
  let right := from (len left) candidate in
  4050 < len candidate ->
  compose cfg rs msg w =
    bind (if negb (str_eqb left (current_msg (self w)))
          then edit_message cfg rs left else ret tt)
         (fun _ => bind (update (set_current_msg right))
                        (fun _ => send_message cfg rs right)) w.
Proof.
  intros candidate left right Hlen.
  assert (Hc : (4050 <? len candidate) = true) by (apply Z.ltb_lt; exact Hlen).
  unfold compose. unfold bind at 1. unfold get_self. cbv iota beta.
  fold candidate. rewrite Hc. reflexivity.
Qed.

(** [compose] when the candidate fits, lines 120-122. *)
Lemma compose_fits_eq (rs : replies) (msg : str) (w : world) :
  let candidate := current_msg (self w) ++ msg in
  len candidate <= 4050 ->
  compose cfg rs msg w =
    bind (edit_message cfg rs candidate)
         (fun _ => update (set_current_msg candidate)) w.
Proof.
  intros candidate Hlen.
  assert (Hc : (4050 <? len candidate) = false) by (apply Z.ltb_ge; exact Hlen).
  unfold compose. unfold bind at 1. unfold get_self. cbv iota beta.
  fold candidate. rewrite Hc. reflexivity.
Qed.

(** The overflow branch: what is posted and what is committed. *)
Lemma compose_overflow (rs : replies) (msg : str) (w : world) :
  let candidate := current_msg (self w) ++ msg in
  let left := whole_lines (upto 4050 candidate) in
  let right := from (len left) candidate in
  let w' := snd (compose cfg rs msg w) in
  4050 < len candidate ->
  requests (io w') =
    requests (io w)
    ++ (if str_eqb left (current_msg (self w)) then []
        else [EditMessageText (message_id (self w)) (render cfg left)])
    ++ [SendMessage (render cfg right)] /\
  current_msg (self w') = right /\
  (ok (on_send rs) = false ->
     fst (compose cfg rs msg w) = Done tt /\
     message_id (self w') = message_id (self w)) /\
  (forall r, ok (on_send rs) = true -> result (on_send rs) = Some r ->
     fst (compose cfg rs msg w) = Done tt /\
     message_id (self w') = r_message_id r) /\
  (ok (on_send rs) = true -> result (on_send rs) = None ->
     fst (compose cfg rs msg w) = Raised AttributeError).
Proof.
  intros candidate left right w' Hlen. subst w'.
  rewrite (compose_overflow_eq rs msg w Hlen). fold candidate left right.
  set (first_part := if negb (str_eqb left (current_msg (self w)))
                     then edit_message cfg rs left else ret tt).
  assert (Hfirst : fst (first_part w) = Done tt /\
            requests (io (snd (first_part w))) =
              requests (io w)
              ++ (if str_eqb left (current_msg (self w)) then []
                  else [EditMessageText (message_id (self w))
                          (render cfg left)]) /\
            message_id (self (snd (first_part w))) = message_id (self w)).
  { subst first_part.
    destruct (str_eqb left (current_msg (self w))); simpl.
    - rewrite app_nil_r. auto.
    - destruct (edit_message_run cfg rs left w) as (H1 & H2 & _ & _ & H3 & _).
      auto. }
  destruct Hfirst as (Hf1 & Hf2 & Hf3).
  unfold bind, update. destruct (first_part w) as [o w1].
  simpl in Hf1, Hf2, Hf3. subst o.
  match goal with |- context [send_message cfg rs right ?w2] =>
    destruct (send_message_run cfg rs right w2) as (S1 & S2 & S3 & S4 & S5);
    destruct S2 as [_ S2] end.
  cbv zeta in *. simpl in S1, S2, S3, S4.
  rewrite S1, Hf2, <- app_assoc.
  split; [reflexivity|]. split; [exact S2|].
  split; [intros Hok; destruct (S3 Hok); split; congruence|].
  split; [intros r Hok Hr; destruct (S4 r Hok Hr); split; congruence|].
  exact S5.
Qed.

(** The other branch: the whole candidate is edited in and committed. *)
Lemma compose_fits (rs : replies) (msg : str) (w : world) :
  let candidate := current_msg (self w) ++ msg in
  let w' := snd (compose cfg rs msg w) in
  len candidate <= 4050 ->
  fst (compose cfg rs msg w) = Done tt /\
  requests (io w') =
    requests (io w)
    ++ [EditMessageText (message_id (self w)) (render cfg candidate)] /\
  current_msg (self w') = candidate /\
  message_id (self w') = message_id (self w).
Proof.
  intros candidate w' Hlen. subst w'.
  rewrite (compose_fits_eq rs msg w Hlen). fold candidate.
  destruct (edit_message_run cfg rs candidate w) as (H1 & H2 & _ & _ & H3 & _).
  unfold bind, update. destruct (edit_message cfg rs candidate w) as [o w1].
  simpl in *. subst o. simpl. auto.
Qed.

Lemma compose_same_buffer (rs : replies) (msg : str) :
  frames same_buffer (compose cfg rs msg).
Proof.
  unfold compose.
  apply (frames_bind same_buffer_trans); [apply (frames_get same_buffer_refl)|].
  intros s. destruct (4050 <? len (current_msg s ++ msg)).
  - apply (frames_bind same_buffer_trans).
    + destruct (negb _); [|apply (frames_ret same_buffer_refl)].
      apply (frames_weaken same_text_buffer), edit_message_same_text.
    + intros _. apply (frames_bind same_buffer_trans).
      * apply frames_update. reflexivity.
      * intros _.
        apply (frames_weaken same_text_buffer), send_message_same_text.
  - apply (frames_bind same_buffer_trans).
    + apply (frames_weaken same_text_buffer), edit_message_same_text.
    + intros _. apply frames_update. reflexivity.
Qed.

(** A flush in file mode is [send_as_file] on the span, run on the buffer
    without the span and on a session that is reset, lines 87-96. *)
Lemma handle_logs_file_eq (rs : replies) (w : world) :
  file_mode cfg (self w) = true ->
  let span := file_chunk (messages (self w)) in
  handle_logs cfg rs w =
    send_as_file rs span
      {| self := set_messages (from (len span) (messages (self w)))
                   (set_message_id (Some 0) (set_current_msg [] (self w)));
         io := io w |}.
Proof.
  intros Hmode span. unfold handle_logs.
  unfold bind at 1. unfold get_self. cbv iota beta. rewrite Hmode.
  reflexivity.
Qed.

Lemma handle_logs_file (rs : replies) (w : world) :
  let span := file_chunk (messages (self w)) in
  let w' := snd (handle_logs cfg rs w) in
  file_mode cfg (self w) = true ->
  fst (handle_logs cfg rs w) = Done tt /\
  requests (io w') = requests (io w) ++ [SendDocument span] /\
  messages (self w') = from (len span) (messages (self w)) /\
  current_msg (self w') = [] /\
  message_id (self w') = Some 0.
Proof.
  intros span w' Hmode. subst w'.
  rewrite (handle_logs_file_eq rs w Hmode). fold span.
  match goal with |- context [send_as_file rs span ?w1] =>
    destruct (send_as_file_run rs span w1) as (H1 & H2 & H3 & H4 & H5 & _) end.
  simpl in *. auto.
Qed.

(** A flush in text mode is the bootstrap followed by [compose], run on
    the buffer without the chunk. *)
Lemma handle_logs_text (rs : replies) (w : world) :
  file_mode cfg (self w) = false ->
  let msg := text_chunk (messages (self w)) in
  handle_logs cfg rs w =
    bind (bootstrap rs) (fun _ => compose cfg rs msg)
         {| self := set_messages (from (len msg) (messages (self w))) (self w);
            io := io w |}.
Proof.
  intros Hmode msg. unfold handle_logs.
  unfold bind at 1. unfold get_self. cbv iota beta. rewrite Hmode.
  reflexivity.
Qed.

(** Whatever the endpoint answers, a flush takes [chunk] off the front of
    the buffer and nothing else. *)
Lemma handle_logs_buffer (rs : replies) (w : world) :
  messages (self w) =
    chunk cfg (self w) ++ messages (self (snd (handle_logs cfg rs w))).
Proof.
  unfold chunk. destruct (file_mode cfg (self w)) eqn:Hmode.
  - destruct (handle_logs_file rs w Hmode) as (_ & _ & H & _).
    rewrite H. symmetry. apply whole_lines_from.
  - rewrite (handle_logs_text rs w Hmode).
    match goal with |- context [bind ?m ?f ?w1] =>
      assert (Hb : same_buffer (self w1) (self (snd (bind m f w1)))) end.
    { apply (frames_bind same_buffer_trans).
      - apply (frames_weaken same_text_buffer), bootstrap_same_text.
      - intros _. apply compose_same_buffer. }
    unfold same_buffer in Hb. simpl in Hb. rewrite Hb.
    symmetry. apply text_chunk_from.
Qed.

End Flush.

Section Bootstrap.

Variable cfg : config.

(** A computation that finishes went through both halves of its [bind]. *)
Lemma bind_done {A B : Type} (m : M A) (f : A -> M B) (w : world) (b : B) :
  fst (bind m f w) = Done b ->
  exists a w1, m w = (Done a, w1) /\ bind m f w = f a w1.
Proof.
  unfold bind. destruct (m w) as [[a|e] w1]; simpl.
  - intros _. exists a, w1. auto.
  - discriminate.
Qed.

(** With a live identifier the bootstrap does nothing. *)
Lemma bootstrap_active (rs : replies) (w : world) :
  truthy_int (message_id (self w)) = true ->
  bootstrap rs w = (Done tt, w).
Proof.
  intros Hid. unfold bootstrap, bind, get_self. rewrite Hid. reflexivity.
Qed.

Lemma initialise_requests (rs : replies) (w : world) :
  requests (io (snd (initialise rs w))) =
    requests (io w) ++ [SendMessage init_text].
Proof.
  unfold initialise, bind. rewrite send_request_run.
  destruct (ok (on_initialise rs)).
  - destruct (result (on_initialise rs)); simpl; apply requests_request.
  - match goal with |- context [handle_error ?r ?w1] =>
      destruct (handle_error_run r w1) as (_ & H & _) end.
    rewrite H. simpl. apply requests_request.
Qed.

(** Without a live identifier the bootstrap asks who the bot is and, when
    the answer can be unpacked, sends the placeholder message; otherwise
    it raises. *)
Lemma bootstrap_uninitialised (rs : replies) (w : world) :
  truthy_int (message_id (self w)) = false ->
  requests (io (snd (bootstrap rs w))) =
    requests (io w)
    ++ GetMe :: (if verified rs then [SendMessage init_text] else []) /\
  (verified rs = false -> exists e, fst (bootstrap rs w) = Raised e).
Proof.
  intros Hid. unfold bootstrap, verified.
  pose proof (initialise_requests rs) as Hinit.
  set (k := initialise rs) in *.
  unfold verify_bot, bind, get_self, send_request, tell, ret, raise, print.
  simpl. rewrite Hid. simpl.
  destruct (is_unauthorized (on_getMe rs)); simpl.
  - rewrite Hinit. simpl. rewrite requests_print, requests_request, <- app_assoc.
    split; [reflexivity|discriminate].
  - destruct (result (on_getMe rs)) as [r|]; simpl.
    + destruct (truthy_str (r_username r)); simpl.
      * rewrite Hinit. simpl. rewrite requests_request, <- app_assoc.
        split; [reflexivity|discriminate].
      * rewrite requests_request.
        split; [reflexivity|]. intros _. exists TypeError. reflexivity.
    + rewrite requests_request.
      split; [reflexivity|]. intros _. exists AttributeError. reflexivity.
Qed.

(** [compose] only adds requests. *)
Lemma compose_appends (rs : replies) (msg : str) (w : world) :
  exists cs c,
    requests (io (snd (compose cfg rs msg w))) = requests (io w) ++ cs ++ [c] /\
    text_of c = Some (render cfg (current_msg (self (snd (compose cfg rs msg w))))) /\
    exists left,
      current_msg (self w) ++ msg =
        left ++ current_msg (self (snd (compose cfg rs msg w))).
Proof.
  destruct (Z.lt_ge_cases 4050 (len (current_msg (self w) ++ msg))) as [H|H].
  - destruct (compose_overflow cfg rs msg w H) as (H1 & H2 & _).
    eexists. eexists. split; [rewrite H1; reflexivity|].
    rewrite H2. split; [reflexivity|].
    eexists. symmetry. apply whole_lines_from_cap.
  - destruct (compose_fits cfg rs msg w H) as (_ & H1 & H2 & _).
    exists [], (EditMessageText (message_id (self w))
                  (render cfg (current_msg (self w) ++ msg))).
    split; [rewrite H1; reflexivity|].
    rewrite H2. split; [reflexivity|]. exists []. reflexivity.
Qed.

End Bootstrap.

(* ------------------------------------------------------------------ *)
(** ** Chunk sizes and boundaries *)

(** C2 (as amended): one flush removes exactly the chunk from the front of
    the buffer; on the text path that is at most 4050 characters, on the
    file path it is at most the whole buffer, and [pending_logs] does not
    bound it. *)
Theorem C2_flush_bound (cfg : config) (rs : replies) (w : world) :
  let taken :=
    len (messages (self w)) - len (messages (self (snd (handle_logs cfg rs w)))) in
  taken = len (chunk cfg (self w)) /\
  (file_mode cfg (self w) = false -> 0 <= taken <= 4050) /\
  (file_mode cfg (self w) = true -> 0 <= taken <= len (messages (self w))).
Proof.
  intros taken.
  assert (Htaken : taken = len (chunk cfg (self w))).
  { subst taken. rewrite (handle_logs_buffer cfg rs w) at 1.
    rewrite len_app. lia. }
  split; [exact Htaken|]. rewrite Htaken. unfold chunk.
  pose proof (len_nonneg (chunk cfg (self w))) as Hpos. unfold chunk in Hpos.
  split; intros Hmode; rewrite Hmode in *.
  - pose proof (len_text_chunk (messages (self w))). lia.
  - pose proof (len_whole_lines (messages (self w))).
    unfold file_chunk in *. lia.
Qed.

Lemma C2_flush_bound_witness :
  let cfg := init_config (lit "TGLogging-black"%string) (IgnoreStr []) 5 1 5 in
  let long := Sample.world_of (set_messages (lit "abcdefghij"%string ++ [NL]) init_state) in
  let short := Sample.world_of (set_messages (lit "abc"%string ++ [NL]) init_state) in
  0 <= len (messages (self long))
       - len (messages (self (snd (handle_logs cfg (Sample.all_ok 1) long)))) <= 11
  /\ 0 <= len (messages (self short))
          - len (messages (self (snd (handle_logs cfg (Sample.all_ok 1) short))))
       <= 4050.
Proof.
  intros cfg long short. split.
  - destruct (C2_flush_bound cfg (Sample.all_ok 1) long) as (_ & _ & H).
    apply H. reflexivity.
  - destruct (C2_flush_bound cfg (Sample.all_ok 1) short) as (_ & H & _).
    apply H. reflexivity.
Defined.

(** C2, as stated, fails on the file path: with [pending_logs = 5], one
    10-character record and the flush that its [emit] schedules, the flush
    removes 10 characters from the 11-character buffer. *)
Lemma C2_file_path_exceeds_pending :
  let cfg := init_config (lit "TGLogging-black"%string) (IgnoreStr []) 5 1 5 in
  let line := lit "abcdefghij"%string in
  exists y y',
    steps cfg [Emit line 1000 1000] boot = Some y /\
    step cfg (Flush (Sample.all_ok 1)) y = Some y' /\
    file_mode cfg (self (sys y)) = true /\
    requests (io (sys y')) = [SendDocument line] /\
    len (messages (self (sys y))) - len (messages (self (sys y'))) = 10 /\
    pending cfg = 5.
Proof.
  do 2 eexists. split; [vm_compute; reflexivity|].
  split; [vm_compute; reflexivity|].
  repeat split; vm_compute; reflexivity.
Qed.

(** C7 (as amended): on the text path the chunk is a prefix of the first
    4050 characters of the buffer.  When that slice has a last newline
    with text before it, the chunk is that text and ends just before the
    newline; the full slice is taken when it holds no newline and also
    when its only newline is its first character. *)
Theorem C7_chunk_boundary (cfg : config) (rs : replies) (w : world) :
  file_mode cfg (self w) = false ->
  let slice := upto 4050 (messages (self w)) in
  let taken := chunk cfg (self w) in
  messages (self w) = taken ++ messages (self (snd (handle_logs cfg rs w))) /\
  (forall a b, slice = a ++ NL :: b -> ~ In NL b -> a <> [] -> taken = a) /\
  (forall b, slice = NL :: b -> ~ In NL b -> taken = slice) /\
  (~ In NL slice -> taken = slice).
Proof.
  intros Hmode slice taken.
  split; [apply handle_logs_buffer|].
  subst taken. unfold chunk. rewrite Hmode. unfold text_chunk. fold slice.
  split; [|split].
  - intros a b Hs Hb Ha. rewrite Hs. apply whole_lines_cut; assumption.
  - intros b Hs Hb. rewrite Hs. apply whole_lines_leading_newline; assumption.
  - apply whole_lines_no_newline.
Qed.

Lemma C7_chunk_boundary_witness :
  let w := Sample.world_of
             (set_messages (lit "one"%string ++ NL :: lit "two"%string ++ [NL])
                init_state) in
  chunk default_config (self w) = lit "one"%string ++ NL :: lit "two"%string.
Proof.
  intros w.
  destruct (C7_chunk_boundary default_config (Sample.all_ok 1) w eq_refl)
    as (_ & H & _).
  apply (H (lit "one"%string ++ NL :: lit "two"%string) []).
  - reflexivity.
  - simpl. tauto.
  - discriminate.
Defined.

(** C7, as stated, fails: after "a" is flushed and a 4060-character line
    arrives, the first 4050 characters of the buffer start with a newline,
    and the chunk is that full slice, cut in the middle of the line. *)
Lemma C7_hard_cut_despite_newline :
  let run := [Emit (lit "a"%string) 1000 1000; Flush (Sample.all_ok 1);
              Emit (repeat "y"%char 4060) 1006 1006] in
  exists y,
    steps default_config run boot = Some y /\
    tasks y = 1%nat /\
    file_mode default_config (self (sys y)) = false /\
    upto 4050 (messages (self (sys y))) = NL :: repeat "y"%char 4049 /\
    chunk default_config (self (sys y)) = NL :: repeat "y"%char 4049 /\
    Spec.text_span (messages (self (sys y))) = [].
Proof.
  eexists. split; [vm_compute; reflexivity|].
  repeat split; vm_compute; reflexivity.
Qed.

(* ------------------------------------------------------------------ *)
(** ** The file dump and the session *)

Section Session.

Variable cfg : config.

(** [emit] leaves the session alone. *)
Lemma emit_session (msg : str) (t1 t2 : float) (s : state) :
  message_id (fst (emit cfg msg t1 t2 s)) = message_id s /\
  current_msg (fst (emit cfg msg t1 t2 s)) = current_msg s.
Proof.
  destruct (ignored cfg msg) eqn:Hi.
  - rewrite (emit_ignored cfg msg t1 t2 s Hi). auto.
  - destruct (emit_kept cfg msg t1 t2 s Hi) as (_ & _ & H1 & H2 & _). auto.
Qed.

Lemma feed_session (es : list (str * float * float)) (s : state) :
  message_id (fst (feed cfg es s)) = message_id s /\
  current_msg (fst (feed cfg es s)) = current_msg s.
Proof.
  revert s. induction es as [|[[msg t1] t2] es IH]; intros s; simpl; [auto|].
  destruct (emit_session msg t1 t2 s) as [H1 H2].
  destruct (emit cfg msg t1 t2 s) as [s1 b]. simpl in *.
  destruct (IH s1) as [H3 H4].
  destruct (feed cfg es s1) as [s2 bs]. simpl in *.
  split; congruence.
Qed.

(** A text flush of a session without identifier starts by asking who the
    bot is and, when the answer can be unpacked, sends the placeholder. *)
Lemma handle_logs_fresh (rs : replies) (w : world) :
  file_mode cfg (self w) = false ->
  truthy_int (message_id (self w)) = false ->
  exists rest,
    requests (io (snd (handle_logs cfg rs w))) =
      requests (io w)
      ++ GetMe :: (if verified rs then SendMessage init_text :: rest else []).
Proof.
  intros Hmode Hid. rewrite (handle_logs_text cfg rs w Hmode).
  set (msg := text_chunk (messages (self w))).
  set (w0 := {| self := set_messages (from (len msg) (messages (self w))) (self w);
                io := io w |}).
  assert (Hid0 : truthy_int (message_id (self w0)) = false) by exact Hid.
  destruct (bootstrap_uninitialised rs w0 Hid0) as [Hreq Hraise].
  change (io w0) with (io w) in Hreq.
  unfold bind. destruct (bootstrap rs w0) as [[[]|e] w1] eqn:Hb; simpl in *.
  - destruct (compose_appends cfg rs msg w1) as (cs & c & Hc & _).
    rewrite Hc, Hreq. destruct (verified rs).
    + exists (cs ++ [c]). rewrite <- app_assoc. reflexivity.
    + destruct (Hraise eq_refl) as [e He]. discriminate.
  - rewrite Hreq. exists []. reflexivity.
Qed.

End Session.

(** C6 (as amended): when the buffer is longer than [pending_logs], the
    flush takes the text before the last newline of the buffer, the
    newline itself excluded (the whole buffer when it holds no newline or
    only a leading one), removes that span from the front of the buffer,
    posts it as a document, and resets the session: identifier 0 and
    committed text empty.  The next flush on the text path therefore
    starts with the identity check and, unless that check fails to
    return, the placeholder message that creates a fresh one. *)
Theorem C6_file_dump (cfg : config) (rs : replies) (w : world) :
  file_mode cfg (self w) = true ->
  let buf := messages (self w) in
  let span := chunk cfg (self w) in
  let w' := snd (handle_logs cfg rs w) in
  fst (handle_logs cfg rs w) = Done tt /\
  buf = span ++ messages (self w') /\
  (forall a b, buf = a ++ NL :: b -> ~ In NL b -> a <> [] -> span = a) /\
  (forall b, buf = NL :: b -> ~ In NL b -> span = buf) /\
  (~ In NL buf -> span = buf) /\
  requests (io w') = requests (io w) ++ [SendDocument span] /\
  current_msg (self w') = [] /\
  message_id (self w') = Some 0 /\
  (forall es rs2,
     let v := {| self := fst (feed cfg es (self w')); io := io w' |} in
     file_mode cfg (self v) = false ->
     exists rest,
       requests (io (snd (handle_logs cfg rs2 v))) =
         requests (io v)
         ++ GetMe :: (if verified rs2 then SendMessage init_text :: rest
                      else [])).
Proof.
  intros Hmode buf span w'.
  destruct (handle_logs_file cfg rs w Hmode) as (H1 & H2 & H3 & H4 & H5).
  assert (Hspan : span = whole_lines buf).
  { subst span. unfold chunk. rewrite Hmode. reflexivity. }
  fold w' in H2, H3, H4, H5.
  split; [exact H1|]. split; [apply handle_logs_buffer|].
  split; [|split; [|split]].
  - intros a b Hs Hb Ha. rewrite Hspan, Hs. apply whole_lines_cut; assumption.
  - intros b Hs Hb. rewrite Hspan, Hs.
    apply whole_lines_leading_newline; assumption.
  - rewrite Hspan. apply whole_lines_no_newline.
  - split; [rewrite Hspan; exact H2|]. split; [exact H4|]. split; [exact H5|].
    intros es rs2 v Hv. apply handle_logs_fresh; [exact Hv|].
    subst v. simpl. destruct (feed_session cfg es (self w')) as [Hid _].
    rewrite Hid, H5. reflexivity.
Qed.

Lemma C6_file_dump_witness :
  let cfg := init_config (lit "TGLogging-black"%string) (IgnoreStr []) 5 1 2 in
  let w := Sample.world_of
             (set_messages (lit "a"%string ++ NL :: lit "b"%string ++ [NL])
                (set_message_id (Some 7) (set_current_msg (lit "old"%string)
                   init_state))) in
  chunk cfg (self w) = lit "a"%string ++ NL :: lit "b"%string
  /\ message_id (self (snd (handle_logs cfg (Sample.all_ok 1) w))) = Some 0
  /\ exists rest,
       requests (io (snd (handle_logs cfg (Sample.all_ok 2)
                            (snd (handle_logs cfg (Sample.all_ok 1) w))))) =
         requests (io (snd (handle_logs cfg (Sample.all_ok 1) w)))
         ++ GetMe :: SendMessage (init_text) :: rest.
Proof.
  intros cfg w.
  destruct (C6_file_dump cfg (Sample.all_ok 1) w eq_refl)
    as (_ & _ & Hcut & _ & _ & _ & _ & Hid & Hnext).
  split; [|split].
  - apply (Hcut (lit "a"%string ++ NL :: lit "b"%string) []);
      [reflexivity|simpl; tauto|discriminate].
  - exact Hid.
  - destruct (Hnext [] (Sample.all_ok 2) eq_refl) as [rest Hrest].
    exists rest. exact Hrest.
Defined.

(** C6, as stated, fails: with [pending_logs = 2], the records "a" and
    "b" and the flush that the second [emit] schedules, the buffer is
    "a\nb\n" and the span that is removed and posted is "a\nb"; the last
    newline is not part of it and stays in the buffer. *)
Lemma C6_last_newline_left_behind :
  let cfg := init_config (lit "TGLogging-black"%string) (IgnoreStr []) 5 2 2 in
  let buf := lit "a"%string ++ NL :: lit "b"%string ++ [NL] in
  exists y y',
    steps cfg [Emit (lit "a"%string) 1000 1000;
               Emit (lit "b"%string) 1001 1001] boot = Some y /\
    step cfg (Flush (Sample.all_ok 1)) y = Some y' /\
    messages (self (sys y)) = buf /\
    file_mode cfg (self (sys y)) = true /\
    Spec.file_span buf = buf /\
    requests (io (sys y'))
      = [SendDocument (lit "a"%string ++ NL :: lit "b"%string)] /\
    messages (self (sys y')) = [NL].
Proof.
  do 2 eexists. split; [vm_compute; reflexivity|].
  split; [vm_compute; reflexivity|].
  repeat split; vm_compute; reflexivity.
Qed.

(* ------------------------------------------------------------------ *)
(** ** Overflow within a message *)

(** C4 (as amended): when the committed text plus the chunk is longer
    than 4050 characters, the flush cuts it just before the last newline
    among its first 4050 characters, or at 4050 when those characters hold
    no newline or only a leading one.  The left part is never empty, is at
    most 4050 characters long and is edited into the current message only
    when it differs from the committed text; the right part starts at the
    cut, becomes the committed text and is sent as a new message, whose
    identifier, returned by a successful send, replaces the old one.  Left
    and right concatenate to the whole candidate. *)
Theorem C4_overflow_split (cfg : config) (rs : replies) (w w1 : world) :
  file_mode cfg (self w) = false ->
  let msg := text_chunk (messages (self w)) in
  bootstrap rs
    {| self := set_messages (from (len msg) (messages (self w))) (self w);
       io := io w |} = (Done tt, w1) ->
  let candidate := current_msg (self w) ++ msg in
  4050 < len candidate ->
  let head := upto 4050 candidate in
  let left := whole_lines head in
  let right := from (len left) candidate in
  let w' := snd (handle_logs cfg rs w) in
  left ++ right = candidate /\
  left <> [] /\ len left <= 4050 /\ len head = 4050 /\
  (forall a b, head = a ++ NL :: b -> ~ In NL b -> a <> [] -> left = a) /\
  (forall b, head = NL :: b -> ~ In NL b -> left = head) /\
  (~ In NL head -> left = head) /\
  requests (io w') =
    requests (io w1)
    ++ (if str_eqb left (current_msg (self w)) then []
        else [EditMessageText (message_id (self w1)) (render cfg left)])
    ++ [SendMessage (render cfg right)] /\
  current_msg (self w') = right /\
  (forall r, ok (on_send rs) = true -> result (on_send rs) = Some r ->
     fst (handle_logs cfg rs w) = Done tt /\
     message_id (self w') = r_message_id r).
Proof.
  intros Hmode msg Hboot candidate Hlen head left right w'.
  assert (Hcur : current_msg (self w1) = current_msg (self w)).
  { match type of Hboot with bootstrap rs ?w0 = _ =>
      destruct (bootstrap_same_text rs w0) as [_ H] end.
    rewrite Hboot in H. exact H. }
  assert (Hrun : handle_logs cfg rs w = compose cfg rs msg w1).
  { rewrite (handle_logs_text cfg rs w Hmode). fold msg.
    unfold bind. rewrite Hboot. reflexivity. }
  assert (Hlen1 : 4050 < len (current_msg (self w1) ++ msg))
    by (rewrite Hcur; exact Hlen).
  destruct (compose_overflow cfg rs msg w1 Hlen1) as (C1 & C2 & _ & C4 & _).
  rewrite Hcur in C1, C2. fold candidate head left right in C1, C2.
  assert (Hhead : len head = 4050).
  { unfold head, upto, len in *. rewrite length_firstn. lia. }
  split; [apply whole_lines_from_cap|].
  split.
  { intros Hnil. apply whole_lines_nil in Hnil. rewrite Hnil in Hhead.
    discriminate. }
  split; [pose proof (len_whole_lines head) as Hwl; unfold left; lia|].
  split; [exact Hhead|].
  split; [intros a b Hs Hb Ha; unfold left; rewrite Hs;
          apply whole_lines_cut; assumption|].
  split; [intros b Hs Hb; unfold left; rewrite Hs;
          apply whole_lines_leading_newline; assumption|].
  split; [apply whole_lines_no_newline|].
  subst w'. rewrite Hrun.
  split; [exact C1|]. split; [exact C2|].
  intros r Hok Hr. destruct (C4 r Hok Hr) as [D1 D2]. auto.
Qed.

Lemma C4_overflow_split_witness :
  let w := {| self := set_messages (repeat "y"%char 4049 ++ [NL])
                        (set_message_id (Some 7)
                           (set_current_msg (lit "one"%string ++ NL
                                               :: lit "two"%string)
                              init_state));
              io := [] |} in
  let w' := snd (handle_logs default_config (Sample.all_ok 8) w) in
  current_msg (self w') = NL :: lit "two"%string ++ repeat "y"%char 4049
  /\ message_id (self w') = Some 8.
Proof.
  intros w w'.
  destruct (C4_overflow_split default_config (Sample.all_ok 8) w
              {| self := set_messages [NL] (self w); io := [] |} eq_refl)
    as (_ & _ & _ & _ & _ & _ & _ & _ & Hcur & Hid).
  - vm_compute. reflexivity.
  - vm_compute. reflexivity.
  - split.
    + fold w' in Hcur. rewrite Hcur. vm_compute. reflexivity.
    + destruct (Hid {| r_message_id := Some 8;
                       r_username := Some (lit "logbot"%string) |}
                  eq_refl eq_refl) as [_ H]. exact H.
Defined.

(** C4, as stated, fails: after "a", a 4060-character line and "b" have
    been logged and flushed one by one, the committed text is a newline
    followed by 4049 characters; the next candidate has its last newline
    within 4050 characters at the very front, and yet it is cut at 4050,
    not at that newline. *)
Lemma C4_hard_cut_despite_newline :
  let run := [Emit (lit "a"%string) 1000 1000; Flush (Sample.all_ok 1);
              Emit (repeat "y"%char 4060) 1006 1006; Flush (Sample.all_ok 1);
              Emit (lit "b"%string) 1012 1012] in
  exists y,
    steps default_config run boot = Some y /\
    let candidate :=
      current_msg (self (sys y)) ++ chunk default_config (self (sys y)) in
    let w' := snd (handle_logs default_config (Sample.all_ok 2) (sys y)) in
    tasks y = 1%nat /\
    file_mode default_config (self (sys y)) = false /\
    len candidate = 4063 /\
    upto 4050 candidate = NL :: repeat "y"%char 4049 /\
    Spec.split_left candidate = [] /\
    current_msg (self w') = from 4050 candidate /\
    current_msg (self w') = repeat "y"%char 11 ++ NL :: lit "b"%string.
Proof.
  eexists. split; [vm_compute; reflexivity|].
  repeat split; vm_compute; reflexivity.
Qed.

(* ------------------------------------------------------------------ *)
(** ** The buffer over a whole run *)

Section Ledger.

Variable cfg : config.

Lemma buffered_snoc (ls : list str) (l : str) :
  buffered (ls ++ [l]) = buffered ls ++ l ++ [NL].
Proof.
  unfold buffered. rewrite map_app, concat_app. simpl.
  rewrite app_nil_r. reflexivity.
Qed.

Lemma concat_snoc (spans : list str) (c : str) :
  concat (spans ++ [c]) = concat spans ++ c.
Proof. rewrite concat_app. simpl. rewrite app_nil_r. reflexivity. Qed.

Lemma account_balanced (base : str) (o : op) (g : ledger) :
  balanced base g -> balanced base (account cfg o g).
Proof.
  unfold balanced. intros Hg. destruct o as [msg t1 t2|rs]; simpl.
  - destruct (ignored cfg msg) eqn:Hi.
    + rewrite (emit_ignored cfg msg t1 t2 _ Hi). exact Hg.
    + destruct (emit_kept cfg msg t1 t2 (self (now g)) Hi) as (_ & Hm & _).
      rewrite Hm, buffered_snoc, !app_assoc, Hg. reflexivity.
  - rewrite concat_snoc, <- app_assoc, <- handle_logs_buffer. exact Hg.
Qed.

Lemma audit_balanced (base : str) (os : list op) (g : ledger) :
  balanced base g -> balanced base (audit cfg os g).
Proof.
  revert g. unfold audit. induction os as [|o os IH]; intros g Hg; simpl.
  - exact Hg.
  - apply IH, account_balanced, Hg.
Qed.

End Ledger.

(** C1: no gap, no duplication, as long as no flush raises.  Each flush
    removes from the front of the buffer exactly its chunk, and the chunk
    is what it hands on: on the file path the document posted is the
    chunk; on the text path the committed text followed by the chunk is
    the candidate, which is either edited whole into the message or cut
    in two parts that concatenate to it, the right part sent and the left
    part edited in unless it is the committed text already.  Over every
    sequence of records and flushes, in any order, the spans removed so
    far followed by what is still pending are the accepted lines, each
    followed by a newline, in order; so once everything accepted has been
    removed, the concatenation of all spans removed equals the
    concatenation of all accepted lines each followed by a newline. *)
Theorem C1_no_gap_no_duplication (cfg : config) :
  (forall rs w,
     let w' := snd (handle_logs cfg rs w) in
     let span := chunk cfg (self w) in
     messages (self w) = span ++ messages (self w') /\
     (file_mode cfg (self w) = true ->
        requests (io w') = requests (io w) ++ [SendDocument span]) /\
     (file_mode cfg (self w) = false ->
      fst (handle_logs cfg rs w) = Done tt ->
      let candidate := current_msg (self w) ++ span in
      let left := whole_lines (upto 4050 candidate) in
      exists boot mid,
        (boot = [] \/ boot = [GetMe; SendMessage init_text]) /\
        (len candidate <= 4050 ->
           current_msg (self w') = candidate /\
           requests (io w') =
             requests (io w) ++ boot
             ++ [EditMessageText mid (render cfg candidate)]) /\
        (4050 < len candidate ->
           candidate = left ++ current_msg (self w') /\
           requests (io w') =
             requests (io w) ++ boot
             ++ (if str_eqb left (current_msg (self w)) then []
                 else [EditMessageText mid (render cfg left)])
             ++ [SendMessage (render cfg (current_msg (self w')))]))) /\
  (forall os s0,
     let g := audit cfg os (opening s0) in
     messages s0 ++ buffered (accepted g)
       = concat (removed g) ++ messages (self (now g))) /\
  (forall os,
     let g := audit cfg os (opening init_state) in
     messages (self (now g)) = [] <->
     concat (removed g) = buffered (accepted g)).
Proof.
  split; [|split].
  - intros rs w w' span. split; [apply handle_logs_buffer|]. split.
    + intros Hmode.
      destruct (handle_logs_file cfg rs w Hmode) as (_ & H & _).
      unfold span, chunk. rewrite Hmode. exact H.
    + intros Hmode Hdone. subst w' span. unfold chunk. rewrite Hmode.
      rewrite (handle_logs_text cfg rs w Hmode) in *.
      set (msg := text_chunk (messages (self w))) in *.
      set (w0 := {| self := set_messages (from (len msg) (messages (self w)))
                              (self w);
                    io := io w |}) in *.
      destruct (bind_done _ _ _ _ Hdone) as ([] & w1 & Hboot & Hrun).
      rewrite Hrun.
      assert (Hcur : current_msg (self w1) = current_msg (self w)).
      { destruct (bootstrap_same_text rs w0) as [_ H].
        rewrite Hboot in H. exact H. }
      assert (Hreq : exists boot,
                 (boot = [] \/ boot = [GetMe; SendMessage init_text]) /\
                 requests (io w1) = requests (io w) ++ boot).
      { destruct (truthy_int (message_id (self w))) eqn:Hid.
        - assert (Hid0 : truthy_int (message_id (self w0)) = true) by exact Hid.
          rewrite (bootstrap_active rs w0 Hid0) in Hboot.
          inversion Hboot; subst w1. exists []. split; [auto|].
          simpl. rewrite app_nil_r. reflexivity.
        - assert (Hid0 : truthy_int (message_id (self w0)) = false) by exact Hid.
          destruct (bootstrap_uninitialised rs w0 Hid0) as [Hq Hraise].
          rewrite Hboot in Hq, Hraise. simpl in Hq, Hraise.
          destruct (verified rs).
          + exists [GetMe; SendMessage init_text]. auto.
          + destruct (Hraise eq_refl) as [e He]. discriminate. }
      destruct Hreq as (boot & Hboot_shape & Hq).
      exists boot, (message_id (self w1)).
      split; [exact Hboot_shape|]. split.
      * intros Hfit.
        assert (Hfit1 : len (current_msg (self w1) ++ msg) <= 4050)
          by (rewrite Hcur; exact Hfit).
        destruct (compose_fits cfg rs msg w1 Hfit1) as (_ & H2 & H3 & _).
        rewrite Hcur in H2, H3. split; [exact H3|].
        rewrite H2, Hq, <- app_assoc. reflexivity.
      * intros Hover.
        assert (Hover1 : 4050 < len (current_msg (self w1) ++ msg))
          by (rewrite Hcur; exact Hover).
        destruct (compose_overflow cfg rs msg w1 Hover1) as (H1 & H2 & _).
        rewrite Hcur in H1, H2. rewrite H2. split.
        -- symmetry. apply whole_lines_from_cap.
        -- rewrite H1, Hq, <- !app_assoc. reflexivity.
  - intros os s0 g. apply (audit_balanced cfg (messages s0) os (opening s0)).
    unfold balanced. simpl. apply app_nil_r.
  - intros os g.
    pose proof (audit_balanced cfg [] os (opening init_state) eq_refl) as H.
    fold g in H. unfold balanced in H. simpl in H. rewrite H. split.
    + intros ->. symmetry. apply app_nil_r.
    + intros E. rewrite <- (app_nil_r (concat (removed g))) in E at 1.
      apply app_inv_head in E. symmetry. exact E.
Qed.

Lemma C1_no_gap_no_duplication_witness :
  let w := Sample.world_of
             (set_messages (lit "one"%string ++ NL :: lit "two"%string ++ [NL])
                init_state) in
  let tiny := init_config (lit "TGLogging-black"%string) (IgnoreStr []) 5 1 2 in
  let g := audit default_config
             [Emit (lit "a"%string) 1000 1000; Flush (Sample.all_ok 1);
              Flush (Sample.all_ok 1)] (opening init_state) in
  requests (io (snd (handle_logs tiny (Sample.all_ok 1) w)))
    = [SendDocument (lit "one"%string ++ NL :: lit "two"%string)]
  /\ current_msg (self (snd (handle_logs default_config (Sample.all_ok 1) w)))
     = lit "one"%string ++ NL :: lit "two"%string
  /\ concat (removed g) = buffered (accepted g).
Proof.
  intros w tiny g. split; [|split].
  - destruct (C1_no_gap_no_duplication tiny) as (H & _).
    destruct (H (Sample.all_ok 1) w) as (_ & Hfile & _).
    apply Hfile. reflexivity.
  - destruct (C1_no_gap_no_duplication default_config) as (H & _).
    destruct (H (Sample.all_ok 1) w) as (_ & _ & Htext).
    destruct (Htext eq_refl eq_refl) as (boot & mid & _ & Hfit & _).
    destruct Hfit as [Hcur _]; [vm_compute; discriminate|].
    exact Hcur.
  - destruct (C1_no_gap_no_duplication default_config) as (_ & _ & H).
    apply (H [Emit (lit "a"%string) 1000 1000; Flush (Sample.all_ok 1);
              Flush (Sample.all_ok 1)]).
    reflexivity.
Defined.

(* ------------------------------------------------------------------ *)
(** ** The size of what is sent, and failures of the endpoint *)

Section Failures.

Variable cfg : config.

(** With a live session, a flush finishes whenever the send that it may
    have to make is answered by an error or by a success with a result:
    error responses to edits, sends and documents never make it raise. *)
Lemma handle_logs_live_done (rs : replies) (w : world) :
  truthy_int (message_id (self w)) = true ->
  (ok (on_send rs) = true -> result (on_send rs) <> None) ->
  fst (handle_logs cfg rs w) = Done tt.
Proof.
  intros Hid Hsend. destruct (file_mode cfg (self w)) eqn:Hmode.
  - apply handle_logs_file. exact Hmode.
  - rewrite (handle_logs_text cfg rs w Hmode). unfold bind.
    rewrite bootstrap_active by exact Hid.
    match goal with |- fst (compose cfg rs ?m ?w0) = _ =>
      destruct (Z.lt_ge_cases 4050 (len (current_msg (self w0) ++ m)))
        as [H|H];
      [destruct (compose_overflow cfg rs m w0 H) as (_ & _ & E & S & _)
      |destruct (compose_fits cfg rs m w0 H) as (D & _)] end.
    + destruct (ok (on_send rs)) eqn:Hok.
      * destruct (result (on_send rs)) as [r|] eqn:Hr.
        -- apply (S r eq_refl eq_refl).
        -- exfalso. apply Hsend; reflexivity.
      * apply E. reflexivity.
    + exact D.
Qed.

End Failures.

(** C3 fails on the code for the remainder of a split.  Default handler;
    "x" and a 4048-character line are logged and flushed, "zz" is logged
    and flushed, a 100-character line is logged and flushed.  The second
    flush commits exactly 4050 characters whose only newline follows the
    "x"; the third flush cuts the candidate after that "x" and sends the
    rest, 4153 characters of log content, in one new message. *)
Lemma C3_remainder_exceeds_cap :
  let run := [Emit (lit "x"%string) 1000 1000;
              Emit (repeat "y"%char 4048) 1000 1000;
              Flush (Sample.all_ok 1);
              Emit (lit "zz"%string) 1006 1006;
              Flush (Sample.all_ok 1);
              Emit (repeat "z"%char 100) 1012 1012;
              Flush (Sample.all_ok 2)] in
  let sent := NL :: repeat "y"%char 4048 ++ NL :: lit "zz"%string
                ++ NL :: repeat "z"%char 100 in
  exists y,
    steps default_config run boot = Some y /\
    last (requests (io (sys y))) GetMe
      = SendMessage (render default_config sent) /\
    len sent = 4153.
Proof.
  eexists. split; [vm_compute; reflexivity|].
  split; vm_compute; reflexivity.
Qed.

(** C9 fails on the code for the identity check.  Default handler, one
    record buffered, no message yet; the endpoint answers the identity
    check with its flood-control error.  The flush raises
    [AttributeError] after it has taken the chunk off the buffer: nothing
    is sent, and the error never reaches [handle_error], so the floor
    stays at zero. *)
Lemma C9_identity_check_error_raises :
  let s := fst (emit default_config (lit "started"%string) 1000 1000
                  init_state) in
  let out := handle_logs default_config Sample.getMe_flooded
               (Sample.world_of s) in
  messages s = lit "started"%string ++ [NL] /\
  fst out = Raised AttributeError /\
  io (snd out) = [Request GetMe] /\
  messages (self (snd out)) = [NL] /\
  floodwait (self (snd out)) = 0.
Proof. repeat split. Qed.

(* ================================================================== *)
(** * Further properties of the handler *)

(* ------------------------------------------------------------------ *)
(** ** The shape of the buffer *)

Section BufferShape.

Variable cfg : config.

(** What follows a prefix of a text that ends with [x] is empty or ends
    with [x]. *)
Lemma suffix_keeps_last {A : Type} (a b c : list A) (x : A) :
  a ++ b = c ++ [x] -> b = [] \/ exists b', b = b' ++ [x].
Proof.
  intros H. destruct b as [|y b] using rev_ind; [left; reflexivity|].
  right. rewrite app_assoc in H. apply app_inj_tail in H.
  destruct H as [_ ->]. exists b. reflexivity.
Qed.

Lemma tidy_suffix (a b : str) : tidy (a ++ b) -> tidy b.
Proof.
  intros [H|[body H]].
  - apply app_eq_nil in H. left. tauto.
  - exact (suffix_keeps_last a b body NL H).
Qed.

Lemma emit_tidy (msg : str) (t1 t2 : float) (s : state) :
  tidy (messages s) -> tidy (messages (fst (emit cfg msg t1 t2 s))).
Proof.
  intros Hs. destruct (ignored cfg msg) eqn:Hi.
  - rewrite (emit_ignored cfg msg t1 t2 s Hi). exact Hs.
  - destruct (emit_kept cfg msg t1 t2 s Hi) as (_ & Hm & _).
    rewrite Hm. right. exists (messages s ++ msg).
    rewrite <- app_assoc. reflexivity.
Qed.

Lemma handle_logs_tidy (rs : replies) (w : world) :
  tidy (messages (self w)) ->
  tidy (messages (self (snd (handle_logs cfg rs w)))).
Proof.
  intros Hs. rewrite (handle_logs_buffer cfg rs w) in Hs.
  exact (tidy_suffix _ _ Hs).
Qed.

(** The chunk of a buffer that is not empty is not empty. *)
Lemma chunk_nonempty (s : state) : messages s <> [] -> chunk cfg s <> [].
Proof.
  intros Hne Hc. unfold chunk, file_chunk, text_chunk in Hc.
  destruct (file_mode cfg s).
  - apply whole_lines_nil in Hc. contradiction.
  - apply whole_lines_nil in Hc. destruct (messages s); [congruence|].
    discriminate.
Qed.

(** A flush shortens a buffer that is not empty. *)
Lemma handle_logs_shrinks (rs : replies) (w : world) :
  messages (self w) <> [] ->
  len (messages (self (snd (handle_logs cfg rs w)))) < len (messages (self w)).
Proof.
  intros Hne. pose proof (chunk_nonempty (self w) Hne) as Hc.
  pose proof (handle_logs_buffer cfg rs w) as Hb.
  apply (f_equal len) in Hb. rewrite len_app in Hb.
  destruct (chunk cfg (self w)); [congruence|].
  unfold len in Hb at 2. simpl length in Hb. lia.
Qed.

Lemma handle_logs_empty_stays (rs : replies) (w : world) :
  messages (self w) = [] ->
  messages (self (snd (handle_logs cfg rs w))) = [].
Proof.
  intros He. pose proof (handle_logs_buffer cfg rs w) as H.
  rewrite He in H. symmetry in H. apply app_eq_nil in H. tauto.
Qed.

Lemma audit_flushes_len (rss : list replies) (g : ledger) :
  len (messages (self (now (audit cfg (map Flush rss) g))))
    <= Z.max 0 (len (messages (self (now g))) - Z.of_nat (length rss)).
Proof.
  revert g. induction rss as [|rs rss IH]; intros g.
  - simpl. pose proof (len_nonneg (messages (self (now g)))). lia.
  - change (audit cfg (map Flush (rs :: rss)) g)
      with (audit cfg (map Flush rss) (account cfg (Flush rs) g)).
    specialize (IH (account cfg (Flush rs) g)).
    change (now (account cfg (Flush rs) g))
      with (snd (handle_logs cfg rs (now g))) in IH.
    change (length (rs :: rss)) with (S (length rss)).
    destruct (list_eq_dec ascii_dec (messages (self (now g))) []) as [He|Hne].
    + rewrite (handle_logs_empty_stays rs (now g) He) in IH.
      rewrite He. unfold len in *. simpl length in *. lia.
    + pose proof (handle_logs_shrinks rs (now g) Hne) as Hs. lia.
Qed.

End BufferShape.

(** X1: the buffer is always empty or ends with a newline: [emit] and
    [handle_logs] keep that shape, so it holds after every run of records
    and flushes that starts from such a buffer, the one of a new handler
    in particular. *)
Theorem X1_buffer_ends_with_newline (cfg : config) (os : list op) (s0 : state) :
  tidy (messages s0) ->
  tidy (messages (self (now (audit cfg os (opening s0))))).
Proof.
  intros H0.
  assert (Hgen : forall g, tidy (messages (self (now g))) ->
                           tidy (messages (self (now (audit cfg os g))))).
  { unfold audit. induction os as [|o os IH]; intros g Hg; simpl; [exact Hg|].
    apply IH. destruct o as [msg t1 t2|rs]; simpl.
    - apply emit_tidy. exact Hg.
    - apply handle_logs_tidy. exact Hg. }
  apply Hgen. exact H0.
Qed.

Lemma X1_buffer_ends_with_newline_witness :
  tidy (messages (self (now (audit default_config
          [Emit (lit "one"%string) 1000 1000; Flush (Sample.all_ok 1);
           Emit (lit "two"%string) 1006 1006]
          (opening init_state))))).
Proof.
  apply X1_buffer_ends_with_newline. left. reflexivity.
Defined.

(** X2: a flush of a buffer that is not empty removes at least one
    character, whatever the endpoint answers, and a flush of an empty
    buffer leaves it empty; so as many flushes as the buffer has
    characters, with no record logged in between, empty it. *)
Theorem X2_flushes_drain_buffer (cfg : config) :
  (forall rs w, messages (self w) <> [] ->
     len (messages (self (snd (handle_logs cfg rs w))))
       < len (messages (self w))) /\
  (forall rs w, messages (self w) = [] ->
     messages (self (snd (handle_logs cfg rs w))) = []) /\
  (forall rss s,
     len (messages s) <= Z.of_nat (length rss) ->
     messages (self (now (audit cfg (map Flush rss) (opening s)))) = []).
Proof.
  split; [apply handle_logs_shrinks|]. split; [apply handle_logs_empty_stays|].
  intros rss s Hlen.
  pose proof (audit_flushes_len cfg rss (opening s)) as H. simpl now in H.
  simpl self in H.
  destruct (messages (self (now (audit cfg (map Flush rss) (opening s)))));
    [reflexivity|].
  unfold len in H at 1. simpl length in H. lia.
Qed.

Lemma X2_flushes_drain_buffer_witness :
  let s := set_messages (lit "ab"%string ++ [NL]) init_state in
  len (messages (self (snd (handle_logs default_config (Sample.all_ok 1)
                              (Sample.world_of s))))) < 3
  /\ messages (self (now (audit default_config
         (map Flush [Sample.all_ok 1; Sample.getMe_flooded; Sample.all_ok 2])
         (opening s)))) = [].
Proof.
  intros s. destruct (X2_flushes_drain_buffer default_config) as (H1 & _ & H3).
  split.
  - apply (H1 (Sample.all_ok 1) (Sample.world_of s)). discriminate.
  - apply H3. simpl. unfold len. simpl. lia.
Defined.

(** X3: when the buffer holds some text followed by one final newline,
    and the flush is on the file path or the buffer has at most 4050
    characters, the flush takes all of the text and leaves exactly that
    newline; a buffer that is only a newline is taken whole. *)
Theorem X3_trailing_newline_stays (cfg : config) (rs : replies) (w : world) :
  (forall body,
     messages (self w) = body ++ [NL] -> body <> [] ->
     file_mode cfg (self w) = true \/ len (messages (self w)) <= 4050 ->
     chunk cfg (self w) = body /\
     messages (self (snd (handle_logs cfg rs w))) = [NL]) /\
  (messages (self w) = [NL] ->
     chunk cfg (self w) = [NL] /\
     messages (self (snd (handle_logs cfg rs w))) = []).
Proof.
  assert (Hwhole : forall buf, len buf <= 4050 -> upto 4050 buf = buf).
  { intros buf Hl. unfold upto, len in *. apply firstn_all2. lia. }
  assert (Hrest : forall c rest,
            messages (self w) = c ++ rest -> chunk cfg (self w) = c ->
            messages (self (snd (handle_logs cfg rs w))) = rest).
  { intros c rest Hm Hc. pose proof (handle_logs_buffer cfg rs w) as H.
    rewrite Hc, Hm in H. apply app_inv_head in H. symmetry. exact H. }
  split.
  - intros body Hm Hne Hmode.
    assert (Hc : chunk cfg (self w) = body).
    { unfold chunk, file_chunk, text_chunk.
      destruct (file_mode cfg (self w)).
      - rewrite Hm. apply whole_lines_cut; [exact Hne|simpl; tauto].
      - destruct Hmode as [Hf|Hl]; [discriminate|].
        rewrite (Hwhole _ Hl), Hm.
        apply whole_lines_cut; [exact Hne|simpl; tauto]. }
    split; [exact Hc|]. apply (Hrest body [NL] Hm Hc).
  - intros Hm.
    assert (Hc : chunk cfg (self w) = [NL]).
    { unfold chunk, file_chunk, text_chunk. rewrite Hm.
      destruct (file_mode cfg (self w)); reflexivity. }
    split; [exact Hc|]. apply (Hrest [NL] []); [|exact Hc].
    rewrite Hm. reflexivity.
Qed.

Lemma X3_trailing_newline_stays_witness :
  let w := Sample.world_of
             (set_messages (lit "one"%string ++ NL :: lit "two"%string ++ [NL])
                init_state) in
  messages (self (snd (handle_logs default_config (Sample.all_ok 1) w))) = [NL]
  /\ chunk default_config (Sample.world_of (set_messages [NL] init_state)).(self)
     = [NL].
Proof.
  intros w. split.
  - destruct (X3_trailing_newline_stays default_config (Sample.all_ok 1) w)
      as (H & _).
    apply (H (lit "one"%string ++ NL :: lit "two"%string)).
    + reflexivity.
    + discriminate.
    + right. vm_compute. discriminate.
  - destruct (X3_trailing_newline_stays default_config (Sample.all_ok 1)
                (Sample.world_of (set_messages [NL] init_state))) as (_ & H).
    apply H. reflexivity.
Defined.
(* ------------------------------------------------------------------ *)
(** ** What a flush leaves alone *)

Section FlushFrame.

Variable cfg : config.
Variable rs : replies.

Lemma kept_refl (s : state) : kept rs s s.
Proof. unfold kept, same_gate, floor_from. auto. Qed.

Lemma kept_trans (s1 s2 s3 : state) : kept rs s1 s2 -> kept rs s2 s3 -> kept rs s1 s3.
Proof.
  unfold kept, same_gate, floor_from.
  intros [[L1 U1] F1] [[L2 U2] F2].
  split; [split; congruence|].
  destruct F2 as [E|F2]; [|right; exact F2].
  rewrite E. exact F1.
Qed.

(** A request does not touch the attributes: what follows it decides. *)
Lemma frames_after_request {B : Type} (R : state -> state -> Prop)
    (c : call) (r : response) (f : response -> M B) :
  frames R (f r) -> frames R (bind (send_request c r) f).
Proof.
  intros H w. unfold bind. rewrite send_request_run.
  exact (H {| self := self w; io := io w ++ [Request c] |}).
Qed.

Lemma handle_error_kept (r : response) :
  In r (handled rs) -> frames (kept rs) (handle_error r).
Proof.
  intros Hin w. destruct (handle_error_run r w) as (_ & _ & Hs). rewrite Hs.
  destruct (retry_after_of r) as [v|] eqn:Hr; [|apply kept_refl].
  destruct (Z.eqb_spec v 0) as [Hv|Hv]; [apply kept_refl|].
  unfold kept, same_gate, floor_from. simpl.
  split; [auto|]. right. split; [exact Hv|]. exists r. auto.
Qed.

Lemma set_message_id_kept (v : option Z) (s : state) :
  kept rs s (set_message_id v s).
Proof. unfold kept, same_gate, floor_from. simpl. auto. Qed.

Lemma set_current_msg_kept (v : str) (s : state) :
  kept rs s (set_current_msg v s).
Proof. unfold kept, same_gate, floor_from. simpl. auto. Qed.

Lemma set_messages_kept (v : str) (s : state) : kept rs s (set_messages v s).
Proof. unfold kept, same_gate, floor_from. simpl. auto. Qed.

Lemma initialise_kept : frames (kept rs) (initialise rs).
Proof.
  unfold initialise. apply frames_after_request.
  destruct (ok (on_initialise rs)).
  - destruct (result (on_initialise rs)); [|apply (frames_raise kept_refl)].
    apply frames_update. intros s. apply set_message_id_kept.
  - apply handle_error_kept. simpl. auto.
Qed.

Lemma send_message_kept (m : str) : frames (kept rs) (send_message cfg rs m).
Proof.
  unfold send_message. apply frames_after_request.
  destruct (ok (on_send rs)).
  - destruct (result (on_send rs)); [|apply (frames_raise kept_refl)].
    apply frames_update. intros s. apply set_message_id_kept.
  - apply handle_error_kept. simpl. auto.
Qed.

Lemma edit_message_kept (m : str) : frames (kept rs) (edit_message cfg rs m).
Proof.
  unfold edit_message.
  apply (frames_bind kept_trans); [apply (frames_get kept_refl)|].
  intros s. apply frames_after_request.
  destruct (ok (on_edit rs)); simpl.
  - apply (frames_ret kept_refl).
  - apply handle_error_kept. simpl. auto.
Qed.

Lemma send_as_file_kept (logs : str) : frames (kept rs) (send_as_file rs logs).
Proof.
  unfold send_as_file. apply frames_after_request.
  destruct (ok (on_document rs)).
  - apply (frames_tell kept_refl).
  - apply handle_error_kept. simpl. auto.
Qed.

Lemma verify_bot_kept : frames (kept rs) (verify_bot rs).
Proof.
  unfold verify_bot. apply frames_after_request.
  destruct (is_unauthorized (on_getMe rs)); [apply (frames_ret kept_refl)|].
  destruct (result (on_getMe rs)) as [r|]; [|apply (frames_raise kept_refl)].
  destruct (truthy_str (r_username r)); apply (frames_ret kept_refl).
Qed.

Lemma bootstrap_kept : frames (kept rs) (bootstrap rs).
Proof.
  unfold bootstrap.
  apply (frames_bind kept_trans); [apply (frames_get kept_refl)|].
  intros s. destruct (negb (truthy_int (message_id s)));
    [|apply (frames_ret kept_refl)].
  apply (frames_bind kept_trans); [apply verify_bot_kept|].
  intros [[uname is_alive]|]; [|apply (frames_raise kept_refl)].
  apply (frames_bind kept_trans); [|intros _; apply initialise_kept].
  destruct (negb is_alive);
    [apply (frames_tell kept_refl)|apply (frames_ret kept_refl)].
Qed.

Lemma compose_kept (msg : str) : frames (kept rs) (compose cfg rs msg).
Proof.
  unfold compose.
  apply (frames_bind kept_trans); [apply (frames_get kept_refl)|].
  intros s. destruct (4050 <? len (current_msg s ++ msg)).
  - apply (frames_bind kept_trans).
    + destruct (negb _); [apply edit_message_kept|apply (frames_ret kept_refl)].
    + intros _. apply (frames_bind kept_trans).
      * apply frames_update. intros s1. apply set_current_msg_kept.
      * intros _. apply send_message_kept.
  - apply (frames_bind kept_trans); [apply edit_message_kept|].
    intros _. apply frames_update. intros s1. apply set_current_msg_kept.
Qed.

Lemma handle_logs_kept : frames (kept rs) (handle_logs cfg rs).
Proof.
  unfold handle_logs.
  apply (frames_bind kept_trans); [apply (frames_get kept_refl)|].
  intros s. destruct (file_mode cfg s).
  - apply (frames_bind kept_trans);
      [apply frames_update; intros s1; apply set_current_msg_kept|].
    intros _. apply (frames_bind kept_trans);
      [apply frames_update; intros s1; apply set_message_id_kept|].
    intros _. apply (frames_bind kept_trans);
      [apply frames_update; intros s1; apply set_messages_kept|].
    intros _. apply send_as_file_kept.
  - apply (frames_bind kept_trans);
      [apply frames_update; intros s1; apply set_messages_kept|].
    intros _. apply (frames_bind kept_trans); [apply bootstrap_kept|].
    intros _. apply compose_kept.
Qed.

Lemma handle_logs_gate_and_floor (w : world) :
  same_gate (self w) (self (snd (handle_logs cfg rs w))) /\
  floor_from (handled rs) (self w) (self (snd (handle_logs cfg rs w))).
Proof. exact (handle_logs_kept w). Qed.

End FlushFrame.

(** X5: a flush never changes the line counter or the last-flush
    timestamp, whether it finishes or raises.  The governor floor after it
    is the floor before it, or a [retry_after] other than zero carried by
    the response to the placeholder, the edit, the send or the document;
    the response to the identity check never sets it. *)
Theorem X5_flush_leaves_gate_inputs (cfg : config) (rs : replies) (w : world) :
  let s := self w in
  let s' := self (snd (handle_logs cfg rs w)) in
  lines s' = lines s /\
  last_update s' = last_update s /\
  (floodwait s' = floodwait s \/
   (floodwait s' <> 0 /\
    exists r, In r [on_initialise rs; on_edit rs; on_send rs; on_document rs]
              /\ retry_after_of r = Some (floodwait s'))).
Proof.
  destruct (handle_logs_gate_and_floor cfg rs w) as [[Hl Hu] Hf].
  cbv zeta. split; [exact Hl|]. split; [exact Hu|]. exact Hf.
Qed.

(* ------------------------------------------------------------------ *)
(** ** How often flushes are scheduled *)

Section Spacing.

Variable cfg : config.

(** What [emit] does to the timestamp and the floor, and when. *)
Lemma emit_timestamp (msg : str) (t1 t2 : float) (s : state) :
  (snd (emit cfg msg t1 t2 s) = true ->
     ge_int (t1 - last_update s)%float (wait_time cfg) = true /\
     ge_int (t1 - last_update s)%float (floodwait s) = true /\
     last_update (fst (emit cfg msg t1 t2 s)) = t2 /\
     floodwait (fst (emit cfg msg t1 t2 s)) = 0) /\
  (snd (emit cfg msg t1 t2 s) = false ->
     last_update (fst (emit cfg msg t1 t2 s)) = last_update s /\
     floodwait (fst (emit cfg msg t1 t2 s)) = floodwait s).
Proof.
  destruct (ignored cfg msg) eqn:Hi.
  - rewrite (emit_ignored cfg msg t1 t2 s Hi). simpl.
    split; [discriminate|auto].
  - destruct (emit_kept cfg msg t1 t2 s Hi) as (Hb & _ & _ & _ & _ & Hf & Hu).
    rewrite Hb, Hf, Hu.
    destruct (gate cfg (t1 - last_update s)%float
                (set_lines (lines s + 1) s)) eqn:Hg.
    + apply gate_spec in Hg. destruct Hg as [Hg _]. simpl in Hg.
      split; [|discriminate]. intros _.
      split; [|split; [|auto]].
      * apply (ge_int_mono _ _ _ (Z.le_max_l _ _) Hg).
      * apply (ge_int_mono _ _ _ (Z.le_max_r _ _) Hg).
    + split; [discriminate|auto].
Qed.

Lemma firings_spaced (os : list op) (w : world) :
  spaced (wait_time cfg) (last_update (self w)) (firings cfg os w).
Proof.
  revert w. induction os as [|[msg t1 t2|rs] os IH]; intros w; simpl.
  - exact I.
  - destruct (emit_timestamp msg t1 t2 (self w)) as [Hfire Hshut].
    destruct (emit cfg msg t1 t2 (self w)) as [s' fired]. simpl in *.
    specialize (IH {| self := s'; io := io w |}). simpl in IH.
    destruct fired; simpl.
    + destruct (Hfire eq_refl) as (Hgap & _ & Hu & _).
      rewrite Hu in IH. split; assumption.
    + destruct (Hshut eq_refl) as [Hu _]. rewrite Hu in IH. exact IH.
  - destruct (handle_logs_gate_and_floor cfg rs w) as [[_ Hu] _].
    rewrite <- Hu. apply IH.
Qed.

End Spacing.

(** X4: flushes are never scheduled more often than [update_interval]
    allows.  In every run of records and flushes, at each call of [emit]
    that creates a flush task the elapsed time that the call computes, its
    clock reading minus the timestamp stored by the call that created the
    task before it (the handler's initial timestamp for the first one),
    rounded as the machine rounds, is at least [update_interval]; a call
    that creates a task also clears the governor floor, and one that does
    not leaves timestamp and floor alone. *)
Theorem X4_flushes_spaced (cfg : config) :
  (forall os w,
     spaced (wait_time cfg) (last_update (self w)) (firings cfg os w)) /\
  (forall msg t1 t2 s,
     (snd (emit cfg msg t1 t2 s) = true ->
        ge_int (t1 - last_update s)%float (wait_time cfg) = true /\
        ge_int (t1 - last_update s)%float (floodwait s) = true /\
        last_update (fst (emit cfg msg t1 t2 s)) = t2 /\
        floodwait (fst (emit cfg msg t1 t2 s)) = 0) /\
     (snd (emit cfg msg t1 t2 s) = false ->
        last_update (fst (emit cfg msg t1 t2 s)) = last_update s /\
        floodwait (fst (emit cfg msg t1 t2 s)) = floodwait s)).
Proof.
  split; [apply firings_spaced|apply emit_timestamp].
Qed.

Lemma X4_flushes_spaced_witness :
  last_update (fst (emit default_config (lit "a"%string) 1000 1001 init_state))
    = 1001%float
  /\ floodwait (fst (emit default_config (lit "b"%string) 1002 1002
                       (set_floodwait 30 (set_last_update 1001 init_state))))
     = 30.
Proof.
  destruct (X4_flushes_spaced default_config) as [_ H]. split.
  - destruct (H (lit "a"%string) 1000%float 1001%float init_state) as [Hf _].
    destruct (Hf eq_refl) as (_ & _ & Hu & _). exact Hu.
  - destruct (H (lit "b"%string) 1002%float 1002%float
                (set_floodwait 30 (set_last_update 1001 init_state)))
      as [_ Hs].
    destruct (Hs eq_refl) as [_ Hf]. exact Hf.
Defined.

(** C5: [emit] of a line that is kept schedules a flush exactly when the
    elapsed time, the clock reading minus the timestamp of the last
    scheduled flush as the machine subtracts them, is at least the larger
    of [update_interval] and the governor floor, and the counter, this
    line included, is at least [minimum_lines].  The timestamp, the
    counter and the floor are what the gate says they are: a call that
    schedules a flush stores its clock reading and resets counter and
    floor to zero, any other call of a kept line only counts the line, an
    ignored line changes nothing, and a flush changes neither counter nor
    timestamp.  After an error with [retry_after = 30] no record whose
    elapsed time is below 30 schedules a flush, whatever [update_interval]
    is.  With [update_interval = 5] and [minimum_lines = 3], from an empty
    counter and no floor, two lines schedule nothing whenever they arrive,
    a third line schedules a flush as soon as its elapsed time is at least
    5, and the line after it schedules nothing again. *)
Theorem C5_gate (cfg : config) :
  (forall msg t1 t2 s, ignored cfg msg = false ->
     let elapsed := (t1 - last_update s)%float in
     let bound := Z.max (wait_time cfg) (floodwait s) in
     let s' := fst (emit cfg msg t1 t2 s) in
     (snd (emit cfg msg t1 t2 s) = true <->
        ge_int elapsed bound = true /\ minimum cfg <= lines s + 1) /\
     (forall q, exact elapsed = Some q ->
        (ge_int elapsed bound = true <-> (inject_Z bound <= q)%Q)) /\
     (snd (emit cfg msg t1 t2 s) = true ->
        last_update s' = t2 /\ lines s' = 0 /\ floodwait s' = 0) /\
     (snd (emit cfg msg t1 t2 s) = false ->
        last_update s' = last_update s /\ lines s' = lines s + 1 /\
        floodwait s' = floodwait s)) /\
  (forall msg t1 t2 s, ignored cfg msg = true ->
     emit cfg msg t1 t2 s = (s, false)) /\
  (forall rs w,
     lines (self (snd (handle_logs cfg rs w))) = lines (self w) /\
     last_update (self (snd (handle_logs cfg rs w))) = last_update (self w)) /\
  (forall resp w es, retry_after_of resp = Some 30 ->
     let s := self (snd (handle_error resp w)) in
     Forall (fun e => ge_int (snd (fst e) - last_update s)%float 30 = false)
            es ->
     Forall (fun b => b = false) (snd (feed cfg es s))) /\
  (wait_time cfg = 5 -> minimum cfg = 3 ->
   forall s l1 l2 l3 l4 t1 t2 t3 t4 u1 u2 u3 u4,
     lines s = 0 -> floodwait s = 0 ->
     ignored cfg l1 = false -> ignored cfg l2 = false ->
     ignored cfg l3 = false -> ignored cfg l4 = false ->
     ge_int (t3 - last_update s)%float 5 = true ->
     let r1 := emit cfg l1 t1 u1 s in
     let r2 := emit cfg l2 t2 u2 (fst r1) in
     let r3 := emit cfg l3 t3 u3 (fst r2) in
     let r4 := emit cfg l4 t4 u4 (fst r3) in
     snd r1 = false /\ snd r2 = false /\ snd r3 = true /\ snd r4 = false).
Proof.
  split; [|split; [|split; [|split]]].
  - intros msg t1 t2 s Hi. cbv zeta.
    destruct (emit_kept cfg msg t1 t2 s Hi)
      as (Hb & _ & _ & _ & Hl & Hf & Hu).
    rewrite Hb, Hl, Hf, Hu.
    split; [apply gate_spec|]. split; [intros q Hq; apply ge_int_exact, Hq|].
    destruct (gate cfg (t1 - last_update s)%float (set_lines (lines s + 1) s));
      split; auto; discriminate.
  - intros msg t1 t2 s. apply emit_ignored.
  - intros rs w. destruct (handle_logs_gate_and_floor cfg rs w) as [H _].
    exact H.
  - intros resp w es Hra s Hall.
    assert (H30 : 30 <> 0) by lia.
    destruct (handle_error_floor resp w 30 Hra H30) as [Hf _].
    apply feed_below_floor. fold s in Hf. rewrite Hf. exact Hall.
  - intros Hw Hm s l1 l2 l3 l4 t1 t2 t3 t4 u1 u2 u3 u4 Hl Hf H1 H2 H3 H4 Hge.
    cbv zeta.
    rewrite (emit_shut cfg l1 t1 u1 s H1) by lia. simpl fst.
    rewrite (emit_shut cfg l2 t2 u2 _ H2) by (simpl; lia). simpl fst.
    split; [reflexivity|]. split; [reflexivity|].
    match goal with |- snd (emit cfg l3 t3 u3 ?s2) = true /\ _ =>
      destruct (emit_kept cfg l3 t3 u3 s2 H3)
        as (Hb & _ & _ & _ & Hl3 & _);
      assert (Hg : gate cfg (t3 - last_update s2)%float
                     (set_lines (lines s2 + 1) s2) = true)
    end.
    { apply gate_spec. simpl. rewrite Hw, Hf, Hm, Hl. split; [exact Hge|lia]. }
    rewrite Hg in Hb, Hl3. split; [exact Hb|].
    rewrite (emit_shut cfg l4 t4 u4 _ H4) by (rewrite Hl3; lia). reflexivity.
Qed.

Lemma C5_gate_witness :
  let cfg := init_config (lit "TGLogging-black"%string) (IgnoreStr []) 5 3 200000 in
  snd (emit default_config (lit "a"%string) 1000 1000 init_state) = true
  /\ last_update (fst (emit default_config (lit "a"%string) 1000 1001
                         init_state)) = 1001%float
  /\ lines (fst (emit cfg (lit "a"%string) 1000 1000 init_state)) = 1
  /\ emit (init_config (lit "TGLogging-black"%string)
             (IgnoreStr (lit "DEBUG"%string)) 5 1 200000)
          (lit "DEBUG: x"%string) 1000 1000 init_state = (init_state, false)
  /\ Forall (fun b => b = false)
       (snd (feed cfg [(lit "a"%string, 1020%float, 1020%float);
                       (lit "b"%string, 1029%float, 1029%float)]
               (self (snd (handle_error (Sample.flood 30)
                             (Sample.world_of
                                (set_last_update 1000 init_state)))))))
  /\ snd (emit cfg (lit "c"%string) 1006 1006
            (fst (emit cfg (lit "b"%string) 1006 1006
                    (fst (emit cfg (lit "a"%string) 1000 1000 init_state)))))
     = true.
Proof.
  intros cfg.
  split; [|split; [|split; [|split; [|split]]]].
  - destruct (C5_gate default_config) as (H & _).
    destruct (H (lit "a"%string) 1000%float 1000%float init_state eq_refl)
      as (Hiff & _).
    apply Hiff. split; [reflexivity|simpl; lia].
  - destruct (C5_gate default_config) as (H & _).
    destruct (H (lit "a"%string) 1000%float 1001%float init_state eq_refl)
      as (_ & _ & Hfire & _).
    destruct (Hfire eq_refl) as (Hu & _). exact Hu.
  - destruct (C5_gate cfg) as (H & _).
    destruct (H (lit "a"%string) 1000%float 1000%float init_state eq_refl)
      as (_ & _ & _ & Hshut).
    destruct (Hshut eq_refl) as (_ & Hl & _). exact Hl.
  - destruct (C5_gate (init_config (lit "TGLogging-black"%string)
                         (IgnoreStr (lit "DEBUG"%string)) 5 1 200000))
      as (_ & H & _).
    apply H. reflexivity.
  - destruct (C5_gate cfg) as (_ & _ & _ & H & _).
    apply H; [reflexivity|].
    repeat constructor.
  - destruct (C5_gate cfg) as (_ & _ & _ & _ & H).
    destruct (H eq_refl eq_refl init_state (lit "a"%string) (lit "b"%string)
                (lit "c"%string) (lit "d"%string)
                1000%float 1006%float 1006%float 1006%float
                1000%float 1006%float 1006%float 1006%float
                eq_refl eq_refl eq_refl eq_refl eq_refl eq_refl eq_refl)
      as (_ & _ & H3 & _).
    exact H3.
Defined.

(* ------------------------------------------------------------------ *)
(** ** The requests of one flush *)

Section Posts.

Variable cfg : config.

Lemma len_render (m : str) : len (render cfg m) = len (title cfg) + len m + 7.
Proof.
  unfold render. rewrite !len_app.
  change (len (lit "```"%string)) with 3. change (len [NL]) with 1. lia.
Qed.

(** [compose] posts one or two requests, and its edits are capped. *)
Lemma compose_posts (rs : replies) (msg : str) (w : world) :
  exists cs,
    requests (io (snd (compose cfg rs msg w))) = requests (io w) ++ cs /\
    (1 <= length cs <= 2)%nat /\ Forall (composed cfg) cs.
Proof.
  destruct (Z.lt_ge_cases 4050 (len (current_msg (self w) ++ msg))) as [H|H].
  - destruct (compose_overflow cfg rs msg w H) as (H1 & _).
    set (left := whole_lines (upto 4050 (current_msg (self w) ++ msg))) in *.
    assert (Hleft : len left <= 4050).
    { pose proof (len_whole_lines (upto 4050 (current_msg (self w) ++ msg))).
      pose proof (len_upto_le 4050 (current_msg (self w) ++ msg)).
      unfold left. lia. }
    eexists. split; [exact H1|].
    destruct (str_eqb left (current_msg (self w))); simpl.
    + split; [lia|]. repeat constructor.
    + split; [lia|]. constructor; [|repeat constructor].
      exists left. auto.
  - destruct (compose_fits cfg rs msg w H) as (_ & H1 & _).
    eexists. split; [exact H1|]. simpl. split; [lia|].
    constructor; [|constructor]. eexists. split; [reflexivity|exact H].
Qed.

Lemma composed_allowed (w : world) (c : call) :
  file_mode cfg (self w) = false -> composed cfg c -> allowed cfg w c.
Proof. intros Hm. destruct c; simpl; auto; tauto. Qed.

(** The requests of a flush: a document on the file path; on the text
    path the bootstrap (nothing, the identity check, or the identity
    check and the placeholder) followed, unless the bootstrap raised, by
    what [compose] posts. *)
Lemma handle_logs_posts (rs : replies) (w : world) :
  exists news,
    requests (io (snd (handle_logs cfg rs w))) = requests (io w) ++ news /\
    (1 <= length news <= 4)%nat /\
    Forall (allowed cfg w) news /\
    (truthy_int (message_id (self w)) = true -> (length news <= 2)%nat).
Proof.
  destruct (file_mode cfg (self w)) eqn:Hmode.
  - destruct (handle_logs_file cfg rs w Hmode) as (_ & H & _).
    exists [SendDocument (file_chunk (messages (self w)))].
    split; [exact H|]. split; [simpl; lia|].
    split; [|simpl; lia].
    constructor; [|constructor]. simpl. unfold chunk. rewrite Hmode. auto.
  - rewrite (handle_logs_text cfg rs w Hmode).
    set (msg := text_chunk (messages (self w))).
    set (w0 := {| self := set_messages (from (len msg) (messages (self w)))
                            (self w);
                  io := io w |}).
    destruct (truthy_int (message_id (self w))) eqn:Hid.
    + unfold bind. rewrite (bootstrap_active rs w0 Hid).
      destruct (compose_posts rs msg w0) as (cs & Hreq & Hlen & Hall).
      exists cs. split; [exact Hreq|]. split; [lia|].
      split; [|intros _; lia].
      eapply Forall_impl; [|exact Hall].
      intros c. apply composed_allowed. exact Hmode.
    + destruct (bootstrap_uninitialised rs w0 Hid) as [Hreq Hraise].
      change (io w0) with (io w) in Hreq.
      unfold bind. destruct (bootstrap rs w0) as [[[]|e] w1] eqn:Hb;
        simpl in Hreq |- *.
      * destruct (compose_posts rs msg w1) as (cs & Hc & Hlen & Hall).
        exists ((GetMe :: (if verified rs then [SendMessage init_text] else []))
                  ++ cs).
        split; [rewrite Hc, Hreq, <- app_assoc; reflexivity|].
        split; [rewrite length_app; destruct (verified rs); simpl; lia|].
        split; [|discriminate].
        apply Forall_app. split.
        -- constructor; [exact Hid|].
           destruct (verified rs); repeat constructor. exact Hmode.
        -- eapply Forall_impl; [|exact Hall].
           intros c. apply composed_allowed. exact Hmode.
      * exists (GetMe :: (if verified rs then [SendMessage init_text] else [])).
        split; [exact Hreq|].
        split; [destruct (verified rs); simpl; lia|].
        split; [|discriminate].
        constructor; [exact Hid|].
        destruct (verified rs); repeat constructor. exact Hmode.
Qed.

End Posts.

(** X6: one flush posts at least one and at most four requests, at most
    two when the session has a live identifier.  On the file path the
    only request is the document with the chunk; on the text path no
    document is posted, and the identity check is posted only when the
    session has no live identifier. *)
Theorem X6_requests_of_a_flush (cfg : config) (rs : replies) (w : world) :
  exists news,
    requests (io (snd (handle_logs cfg rs w))) = requests (io w) ++ news /\
    (1 <= length news <= 4)%nat /\
    (truthy_int (message_id (self w)) = true -> (length news <= 2)%nat) /\
    (file_mode cfg (self w) = true ->
       news = [SendDocument (chunk cfg (self w))]) /\
    (file_mode cfg (self w) = false ->
       forall d, ~ In (SendDocument d) news) /\
    (In GetMe news -> truthy_int (message_id (self w)) = false).
Proof.
  destruct (handle_logs_posts cfg rs w) as (news & Hreq & Hlen & Hall & Hlive).
  exists news. split; [exact Hreq|]. split; [exact Hlen|].
  split; [exact Hlive|]. rewrite Forall_forall in Hall.
  split; [|split].
  - intros Hmode.
    destruct (handle_logs_file cfg rs w Hmode) as (_ & H & _).
    rewrite Hreq in H. apply app_inv_head in H. rewrite H.
    unfold chunk. rewrite Hmode. reflexivity.
  - intros Hmode d Hin. destruct (Hall _ Hin) as [Hf _]. congruence.
  - intros Hin. exact (Hall _ Hin).
Qed.

Lemma X6_requests_of_a_flush_witness :
  let w := {| self := set_messages (lit "one"%string ++ [NL])
                        (set_message_id (Some 7) init_state);
              io := [] |} in
  exists news,
    requests (io (snd (handle_logs default_config (Sample.all_ok 1) w)))
      = news /\
    (length news <= 2)%nat /\ forall d, ~ In (SendDocument d) news.
Proof.
  intros w.
  destruct (X6_requests_of_a_flush default_config (Sample.all_ok 1) w)
    as (news & Hreq & _ & Hlive & _ & Htext & _).
  exists news. split; [exact Hreq|].
  split; [apply Hlive; reflexivity|apply Htext; reflexivity].
Defined.

(** X7: every edit that a flush posts carries at most 4050 characters of
    log content, wrapped with the title; its text is therefore at most
    4057 characters longer than the title. *)
Theorem X7_edits_are_capped (cfg : config) (rs : replies) (w : world)
    (news : list call) (mid : option Z) (text : str) :
  requests (io (snd (handle_logs cfg rs w))) = requests (io w) ++ news ->
  In (EditMessageText mid text) news ->
  exists m,
    text = render cfg m /\ len m <= 4050 /\
    len text <= len (title cfg) + 4057.
Proof.
  intros Hreq Hin.
  destruct (handle_logs_posts cfg rs w) as (news' & Hreq' & _ & Hall & _).
  rewrite Hreq in Hreq'. apply app_inv_head in Hreq'. subst news'.
  rewrite Forall_forall in Hall. destruct (Hall _ Hin) as (_ & m & Ht & Hm).
  exists m. split; [exact Ht|]. split; [exact Hm|].
  rewrite Ht, len_render. lia.
Qed.

Lemma X7_edits_are_capped_witness :
  let w := {| self := set_messages (lit "one"%string ++ [NL])
                        (set_message_id (Some 7) init_state);
              io := [] |} in
  exists m,
    render default_config (lit "one"%string) = render default_config m /\
    len m <= 4050 /\
    len (render default_config (lit "one"%string))
      <= len (title default_config) + 4057.
Proof.
  intros w.
  apply (X7_edits_are_capped default_config (Sample.all_ok 1) w
           [EditMessageText (Some 7) (render default_config (lit "one"%string))]
           (Some 7)).
  - reflexivity.
  - left. reflexivity.
Defined.
(* ------------------------------------------------------------------ *)
(** ** An invalid token *)

Section InvalidToken.

Variable cfg : config.
Variable rs : replies.

Hypothesis getMe_unauthorized : is_unauthorized (on_getMe rs) = true.
Hypothesis initialise_silent : silent (on_initialise rs).
Hypothesis edit_silent : silent (on_edit rs).
Hypothesis send_silent : silent (on_send rs).

Lemma prints_app (a b : list event) : prints (a ++ b) = prints a ++ prints b.
Proof. apply flat_map_app. Qed.

(** [handle_error] does nothing at all on a silent response. *)
Lemma handle_error_silent (r : response) (w : world) :
  silent r -> handle_error r w = (Done tt, w).
Proof.
  intros (_ & Hp & Hu). unfold handle_error. rewrite Hp, Hu. reflexivity.
Qed.

Lemma edit_message_silent (m : str) (w : world) :
  edit_message cfg rs m w =
    (Done tt,
     {| self := self w;
        io := io w ++ [Request (EditMessageText (message_id (self w))
                                  (render cfg m))] |}).
Proof.
  unfold edit_message, bind, get_self. rewrite send_request_run.
  destruct edit_silent as (Hok & _). rewrite Hok. simpl.
  apply handle_error_silent. exact edit_silent.
Qed.

Lemma send_message_silent (m : str) (w : world) :
  send_message cfg rs m w =
    (Done tt,
     {| self := self w;
        io := io w ++ [Request (SendMessage (render cfg m))] |}).
Proof.
  unfold send_message, bind. rewrite send_request_run.
  destruct send_silent as (Hok & _). rewrite Hok.
  apply handle_error_silent. exact send_silent.
Qed.

Lemma bootstrap_unauthorized (w : world) :
  truthy_int (message_id (self w)) = false ->
  bootstrap rs w =
    (Done tt,
     {| self := self w;
        io := io w ++ [Request GetMe] ++ [Print InvalidToken]
                   ++ [Request (SendMessage init_text)] |}).
Proof.
  intros Hid. unfold bootstrap, verify_bot, initialise.
  unfold bind, get_self, send_request, tell, ret, print. simpl.
  rewrite Hid, getMe_unauthorized. simpl.
  destruct initialise_silent as (Hok & _). rewrite Hok.
  rewrite (handle_error_silent _ _ initialise_silent).
  rewrite <- !app_assoc. reflexivity.
Qed.

Lemma compose_silent (msg : str) (w : world) :
  fst (compose cfg rs msg w) = Done tt /\
  prints (io (snd (compose cfg rs msg w))) = prints (io w) /\
  message_id (self (snd (compose cfg rs msg w))) = message_id (self w) /\
  floodwait (self (snd (compose cfg rs msg w))) = floodwait (self w).
Proof.
  destruct (Z.lt_ge_cases 4050 (len (current_msg (self w) ++ msg))) as [H|H].
  - rewrite (compose_overflow_eq cfg rs msg w H).
    destruct (str_eqb _ (current_msg (self w))); simpl negb; cbv iota.
    + unfold bind, ret, update. rewrite send_message_silent. simpl.
      rewrite prints_app. simpl. rewrite app_nil_r. auto.
    + unfold bind, update. rewrite edit_message_silent, send_message_silent.
      simpl. rewrite !prints_app. simpl. rewrite !app_nil_r. auto.
  - rewrite (compose_fits_eq cfg rs msg w H).
    unfold bind, update. rewrite edit_message_silent. simpl.
    rewrite prints_app. simpl. rewrite app_nil_r. auto.
Qed.

Lemma handle_logs_unauthorized (w : world) :
  file_mode cfg (self w) = false ->
  truthy_int (message_id (self w)) = false ->
  fst (handle_logs cfg rs w) = Done tt /\
  prints (io (snd (handle_logs cfg rs w))) = prints (io w) ++ [InvalidToken] /\
  message_id (self (snd (handle_logs cfg rs w))) = message_id (self w) /\
  floodwait (self (snd (handle_logs cfg rs w))) = floodwait (self w).
Proof.
  intros Hmode Hid. rewrite (handle_logs_text cfg rs w Hmode).
  unfold bind at 1 2 3 4. rewrite bootstrap_unauthorized by exact Hid.
  match goal with |- context [compose cfg rs ?m ?w1] =>
    destruct (compose_silent m w1) as (H1 & H2 & H3 & H4) end.
  rewrite H1, H2, H3, H4. simpl. rewrite !prints_app. simpl. auto.
Qed.

End InvalidToken.

(** X8: with an invalid token the handler stays quiet and never raises.
    When the endpoint answers "Unauthorized" (401, no parameters) to the
    identity check, the placeholder, the edit and the send, a text flush
    of a session without identifier finishes, prints the invalid-token
    line and nothing else, and leaves the identifier and the governor
    floor as they were; the next flush goes through the same bootstrap
    again. *)
Theorem X8_invalid_token_is_quiet (cfg : config) (rs : replies) (w : world) :
  is_unauthorized (on_getMe rs) = true ->
  silent (on_initialise rs) -> silent (on_edit rs) -> silent (on_send rs) ->
  file_mode cfg (self w) = false ->
  truthy_int (message_id (self w)) = false ->
  let w' := snd (handle_logs cfg rs w) in
  fst (handle_logs cfg rs w) = Done tt /\
  prints (io w') = prints (io w) ++ [InvalidToken] /\
  message_id (self w') = message_id (self w) /\
  floodwait (self w') = floodwait (self w).
Proof.
  intros H1 H2 H3 H4 Hmode Hid. cbv zeta.
  apply handle_logs_unauthorized; assumption.
Qed.

Lemma X8_invalid_token_is_quiet_witness :
  let denied := {| ok := false; result := None; error_code := Some 401;
                   description := Some (lit "Unauthorized"%string);
                   parameters := None |} in
  let rs := {| on_getMe := denied; on_initialise := denied;
               on_edit := denied; on_send := denied;
               on_document := denied |} in
  let w := Sample.world_of (set_messages (lit "boot"%string ++ [NL]) init_state) in
  prints (io (snd (handle_logs default_config rs w))) = [InvalidToken]
  /\ message_id (self (snd (handle_logs default_config rs w))) = Some 0.
Proof.
  intros denied rs w.
  assert (Hs : silent denied) by (repeat split; reflexivity).
  destruct (X8_invalid_token_is_quiet default_config rs w
              eq_refl Hs Hs Hs eq_refl eq_refl) as (_ & Hp & Hid & _).
  split; [exact Hp|exact Hid].
Defined.

(* ------------------------------------------------------------------ *)
(** ** The ignore list of [__init__] *)

(** X9: how [__init__] normalises [ignore_match].  An empty string or an
    empty list switches the filter off; a string that is not empty is one
    pattern, so a line is ignored exactly when the string occurs in it; a
    list that contains the empty string makes every line ignored. *)
Theorem X9_ignore_match_normalised (t : str) (u m p : Z) (msg : str) :
  ignored (init_config t (IgnoreStr []) u m p) msg = false /\
  ignored (init_config t (IgnoreList []) u m p) msg = false /\
  (forall s, s <> [] ->
     ignored (init_config t (IgnoreStr s) u m p) msg = contains s msg) /\
  (forall l, In [] l ->
     ignored (init_config t (IgnoreList l) u m p) msg = true).
Proof.
  split; [reflexivity|]. split; [reflexivity|]. split.
  - intros s Hs. unfold ignored, init_config. simpl.
    destruct s as [|c s]; [congruence|].
    replace (0 <? len (c :: s)) with true
      by (symmetry; apply Z.ltb_lt; unfold len; simpl length; lia).
    simpl. apply orb_false_r.
  - intros l Hin. unfold ignored, init_config. simpl.
    destruct l as [|x l]; [contradiction|].
    replace (0 <? Z.of_nat (length (x :: l))) with true
      by (symmetry; apply Z.ltb_lt; simpl length; lia).
    apply existsb_exists. exists []. split; [exact Hin|].
    destruct msg; reflexivity.
Qed.

Lemma X9_ignore_match_normalised_witness :
  ignored (init_config (lit "t"%string) (IgnoreStr (lit "DEBUG"%string)) 5 1 9)
          (lit "INFO: ok"%string)
    = contains (lit "DEBUG"%string) (lit "INFO: ok"%string)
  /\ ignored (init_config (lit "t"%string)
                (IgnoreList [lit "DEBUG"%string; []]) 5 1 9)
             (lit "INFO: ok"%string) = true.
Proof.
  destruct (X9_ignore_match_normalised (lit "t"%string) 5 1 9
              (lit "INFO: ok"%string)) as (_ & _ & H3 & H4).
  split.
  - apply H3. discriminate.
  - apply H4. right. left. reflexivity.
Defined.
(* ------------------------------------------------------------------ *)
(** ** Answers that a flush can rely on *)

Section WellFormed.

Variable cfg : config.

Lemma bootstrap_done (rs : replies) (w : world) :
  (truthy_int (message_id (self w)) = false ->
     verified rs = true /\
     (ok (on_initialise rs) = true -> result (on_initialise rs) <> None)) ->
  fst (bootstrap rs w) = Done tt.
Proof.
  intros Hwf. destruct (truthy_int (message_id (self w))) eqn:Hid.
  - rewrite (bootstrap_active rs w Hid). reflexivity.
  - destruct (Hwf eq_refl) as [Hv Hinit]. clear Hwf.
    assert (Hi : forall w1, fst (initialise rs w1) = Done tt).
    { intros w1. unfold initialise, bind. rewrite send_request_run.
      destruct (ok (on_initialise rs)).
      - destruct (result (on_initialise rs)); [reflexivity|].
        exfalso. apply Hinit; reflexivity.
      - apply handle_error_run. }
    unfold verified in Hv. unfold bootstrap.
    set (k := initialise rs) in *.
    unfold verify_bot, bind, get_self, send_request, tell, ret, raise, print.
    simpl. rewrite Hid. simpl.
    destruct (is_unauthorized (on_getMe rs)); simpl; [apply Hi|].
    simpl in Hv. destruct (result (on_getMe rs)) as [r|]; [|discriminate].
    rewrite Hv. simpl. apply Hi.
Qed.

Lemma compose_done (rs : replies) (msg : str) (w : world) :
  (ok (on_send rs) = true -> result (on_send rs) <> None) ->
  fst (compose cfg rs msg w) = Done tt.
Proof.
  intros Hsend.
  destruct (Z.lt_ge_cases 4050 (len (current_msg (self w) ++ msg))) as [H|H].
  - destruct (compose_overflow cfg rs msg w H) as (_ & _ & E & S & _).
    destruct (ok (on_send rs)) eqn:Hok.
    + destruct (result (on_send rs)) as [r|] eqn:Hr.
      * apply (S r eq_refl eq_refl).
      * exfalso. apply Hsend; reflexivity.
    + apply E. reflexivity.
  - apply compose_fits. exact H.
Qed.

End WellFormed.

(** X11: a flush never raises when the endpoint's answers have the
    expected form: every success of the send (and, for a session without
    identifier, of the placeholder) carries a result, and the identity
    check of such a session is answered "Unauthorized" or with a user
    name.  Error responses to the placeholder, the edit, the send and the
    document never make it raise. *)
Theorem X11_flush_finishes (cfg : config) (rs : replies) (w : world) :
  (truthy_int (message_id (self w)) = false ->
     verified rs = true /\
     (ok (on_initialise rs) = true -> result (on_initialise rs) <> None)) ->
  (ok (on_send rs) = true -> result (on_send rs) <> None) ->
  fst (handle_logs cfg rs w) = Done tt.
Proof.
  intros Hboot Hsend. destruct (file_mode cfg (self w)) eqn:Hmode.
  - apply handle_logs_file. exact Hmode.
  - rewrite (handle_logs_text cfg rs w Hmode). unfold bind.
    match goal with |- context [bootstrap rs ?w0] =>
      pose proof (bootstrap_done rs w0 Hboot) as Hb;
      destruct (bootstrap rs w0) as [[[]|e] w1] end; [|discriminate].
    apply compose_done. exact Hsend.
Qed.

Lemma X11_flush_finishes_witness :
  let rs := {| on_getMe := Sample.success 0;
               on_initialise := Sample.flood 30;
               on_edit := Sample.flood 30;
               on_send := Sample.flood 30;
               on_document := Sample.flood 30 |} in
  fst (handle_logs default_config rs
         (Sample.world_of (set_messages (lit "boot"%string ++ [NL]) init_state)))
    = Done tt.
Proof.
  intros rs. apply X11_flush_finishes.
  - intros _. split; [reflexivity|discriminate].
  - discriminate.
Defined.



(* ------------------------------------------------------------------ *)
(** ** The payloads *)

Section Payloads.

Import Payload.

(** X10: the payload of every request other than the identity check
    carries the chat identifier and the rendering mode, and carries the
    thread identifier exactly when [forum_msg_id] is positive.  A send and
    an edit carry their text and the preview flag, the edit also the
    message identifier; the document request carries the caption and no
    preview flag, so that none of its parameters is a boolean. *)
Theorem X10_payloads (log_chat_id forum_msg_id : Z) :
  let payload := base log_chat_id forum_msg_id in
  (forall c, c <> GetMe ->
     get "chat_id" (snd (of_call payload c)) = Some (VInt log_chat_id) /\
     get "parse_mode" (snd (of_call payload c))
       = Some (VStr (lit "Markdown"%string)) /\
     get "message_thread_id" (snd (of_call payload c))
       = (if 0 <? forum_msg_id then Some (VInt forum_msg_id) else None)) /\
  (forall text,
     get "text" (snd (of_call payload (SendMessage text))) = Some (VStr text) /\
     get "message_id" (snd (of_call payload (SendMessage text))) = None /\
     get "disable_web_page_preview" (snd (of_call payload (SendMessage text)))
       = Some (VBool true)) /\
  (forall mid text,
     get "text" (snd (of_call payload (EditMessageText mid text)))
       = Some (VStr text) /\
     get "message_id" (snd (of_call payload (EditMessageText mid text)))
       = Some (of_id mid) /\
     get "disable_web_page_preview"
         (snd (of_call payload (EditMessageText mid text)))
       = Some (VBool true)) /\
  (forall d,
     get "caption" (snd (of_call payload (SendDocument d)))
       = Some (VStr caption) /\
     get "text" (snd (of_call payload (SendDocument d))) = None /\
     Forall (fun kv => forall b, snd kv <> VBool b)
            (snd (of_call payload (SendDocument d)))) /\
  of_call payload GetMe = ("getMe"%string, []).
Proof.
  cbv zeta. unfold base.
  split; [|split; [|split; [|split]]].
  - intros c Hc. destruct c; [congruence| | |];
      destruct (0 <? forum_msg_id); repeat split; reflexivity.
  - intros text. destruct (0 <? forum_msg_id); repeat split; reflexivity.
  - intros mid text. destruct (0 <? forum_msg_id); repeat split; reflexivity.
  - intros d. destruct (0 <? forum_msg_id); simpl;
      (split; [reflexivity|]; split; [reflexivity|]);
      repeat constructor; simpl; discriminate.
  - reflexivity.
Qed.

Lemma X10_payloads_witness :
  get "message_thread_id"
      (snd (of_call (base 42 7) (SendMessage (lit "x"%string))))
    = Some (VInt 7)
  /\ get "chat_id" (snd (of_call (base 42 0) (SendDocument (lit "x"%string))))
     = Some (VInt 42).
Proof.
  split.
  - destruct (X10_payloads 42 7) as (H & _).
    destruct (H (SendMessage (lit "x"%string))) as (_ & _ & Ht);
      [discriminate|exact Ht].
  - destruct (X10_payloads 42 0) as (H & _).
    destruct (H (SendDocument (lit "x"%string))) as (Hc & _);
      [discriminate|exact Hc].
Defined.

End Payloads.
(* ------------------------------------------------------------------ *)
(** ** The text path when the candidate fits *)

Section InPlace.

Variable cfg : config.

(** The bootstrap of a session without identifier when the identity check
    returns and the placeholder is accepted. *)
Lemma bootstrap_fresh (rs : replies) (r : result_obj) (w : world) :
  truthy_int (message_id (self w)) = false ->
  verified rs = true ->
  ok (on_initialise rs) = true ->
  result (on_initialise rs) = Some r ->
  exists w1,
    bootstrap rs w = (Done tt, w1) /\
    self w1 = set_message_id (r_message_id r) (self w) /\
    requests (io w1) = requests (io w) ++ [GetMe; SendMessage init_text].
Proof.
  intros Hid Hv Hok Hr. unfold verified in Hv.
  unfold bootstrap, verify_bot, initialise.
  unfold bind, get_self, send_request, tell, ret, raise, print, update.
  simpl. rewrite Hid. simpl.
  destruct (is_unauthorized (on_getMe rs)); simpl.
  - rewrite Hok, Hr. eexists. split; [reflexivity|]. simpl.
    split; [reflexivity|].
    rewrite !requests_app. simpl. rewrite app_nil_r, <- app_assoc. reflexivity.
  - simpl in Hv. destruct (result (on_getMe rs)) as [u|]; [|discriminate].
    rewrite Hv. simpl. rewrite Hok, Hr. eexists. split; [reflexivity|]. simpl.
    split; [reflexivity|].
    rewrite !requests_app. simpl. rewrite <- app_assoc. reflexivity.
Qed.

End InPlace.

(** X13: on a live session, when the committed text followed by the chunk
    has at most 4050 characters, a text flush posts exactly one request,
    an edit of the current message with that whole text, commits it, and
    keeps the identifier, whatever the endpoint answers to the edit. *)
Theorem X13_edit_in_place (cfg : config) (rs : replies) (w : world) :
  file_mode cfg (self w) = false ->
  truthy_int (message_id (self w)) = true ->
  len (current_msg (self w) ++ chunk cfg (self w)) <= 4050 ->
  let w' := snd (handle_logs cfg rs w) in
  fst (handle_logs cfg rs w) = Done tt /\
  requests (io w') =
    requests (io w)
    ++ [EditMessageText (message_id (self w))
          (render cfg (current_msg (self w) ++ chunk cfg (self w)))] /\
  current_msg (self w') = current_msg (self w) ++ chunk cfg (self w) /\
  message_id (self w') = message_id (self w).
Proof.
  intros Hmode Hid Hfit. cbv zeta. unfold chunk in *. rewrite Hmode in *.
  rewrite (handle_logs_text cfg rs w Hmode).
  unfold bind. rewrite bootstrap_active by exact Hid.
  match goal with |- context [compose cfg rs ?m ?w0] =>
    destruct (compose_fits cfg rs m w0 Hfit) as (H1 & H2 & H3 & H4) end.
  auto.
Qed.

Lemma X13_edit_in_place_witness :
  let w := {| self := set_messages (lit "two"%string ++ [NL])
                        (set_message_id (Some 7)
                           (set_current_msg (lit "one"%string) init_state));
              io := [] |} in
  current_msg (self (snd (handle_logs default_config Sample.getMe_flooded w)))
    = lit "onetwo"%string.
Proof.
  intros w.
  destruct (X13_edit_in_place default_config Sample.getMe_flooded w)
    as (_ & _ & H & _);
    [reflexivity|reflexivity|vm_compute; discriminate|exact H].
Defined.

(** X14: the first flush of a session.  Without a live identifier, when
    the identity check returns, the placeholder is accepted with a result
    and the candidate has at most 4050 characters, a text flush posts the
    identity check, the placeholder and one edit, in that order; the edit
    addresses the identifier that the placeholder's result carries, which
    becomes the session's identifier. *)
Theorem X14_first_flush (cfg : config) (rs : replies) (r : result_obj)
    (w : world) :
  file_mode cfg (self w) = false ->
  truthy_int (message_id (self w)) = false ->
  verified rs = true ->
  ok (on_initialise rs) = true ->
  result (on_initialise rs) = Some r ->
  len (current_msg (self w) ++ chunk cfg (self w)) <= 4050 ->
  let w' := snd (handle_logs cfg rs w) in
  fst (handle_logs cfg rs w) = Done tt /\
  requests (io w') =
    requests (io w)
    ++ [GetMe; SendMessage init_text;
        EditMessageText (r_message_id r)
          (render cfg (current_msg (self w) ++ chunk cfg (self w)))] /\
  current_msg (self w') = current_msg (self w) ++ chunk cfg (self w) /\
  message_id (self w') = r_message_id r.
Proof.
  intros Hmode Hid Hv Hok Hr Hfit. cbv zeta. unfold chunk in *. rewrite Hmode in *.
  rewrite (handle_logs_text cfg rs w Hmode).
  set (w0 := {| self := set_messages
                          (from (len (text_chunk (messages (self w))))
                             (messages (self w))) (self w);
                io := io w |}).
  destruct (bootstrap_fresh rs r w0 Hid Hv Hok Hr) as (w1 & Hb & Hs & Hq).
  unfold bind. rewrite Hb.
  assert (Hfit1 : len (current_msg (self w1)
                         ++ text_chunk (messages (self w))) <= 4050)
    by (rewrite Hs; exact Hfit).
  destruct (compose_fits cfg rs _ w1 Hfit1) as (H1 & H2 & H3 & H4).
  rewrite H1, H2, H3, H4, Hq, Hs. simpl. rewrite <- app_assoc.
  auto.
Qed.

Lemma X14_first_flush_witness :
  let w := Sample.world_of (set_messages (lit "boot"%string ++ [NL]) init_state) in
  message_id (self (snd (handle_logs default_config (Sample.all_ok 9) w)))
    = Some 9.
Proof.
  intros w.
  destruct (X14_first_flush default_config (Sample.all_ok 9)
              {| r_message_id := Some 9;
                 r_username := Some (lit "logbot"%string) |} w)
    as (_ & _ & _ & H);
    [reflexivity|reflexivity|reflexivity|reflexivity|reflexivity
    |vm_compute; discriminate|exact H].
Defined.
